(** * rosbag_to_dora: the bag locator, the extractor and the timed emitter

    A shallow embedding of [src/ros2bag_to_dora.py] and
    [src/ros2bag_read.py].

    - Python [int] is [Z]; Python [float] is IEEE binary64, here Rocq's
      primitive [float] with the same rounding.
    - [print] appends one structured line to a standard output that is part of
      the state; [send_output] appends one call record.
    - An exception is a value of [exn]; a computation that raises keeps the
      side effects it performed before raising.
    - The operating system, the bag reader and the CDR deserializer are
      outside the repository: the file system is an explicit tree, the
      reader and the deserializer are arguments of the functions that call
      them. *)

From Stdlib Require Import ZArith Floats Lia.
From Stdlib.Strings Require Import Ascii String Byte.
From stdpp Require Import base option list strings gmap.

Local Open Scope string_scope.
Local Open Scope list_scope.
Local Open Scope Z_scope.

(** ** Exceptions and results *)

(** The classes of [Exception] the code can meet.  [LibraryError] stands for
    whatever the bag reader or the deserializer raises. *)
Inductive exn : Type :=
  | ZeroDivisionError
  | OverflowError
  | IndexError
  | AttributeError (attr : string)
  | OSError (msg : string)
  | LibraryError (msg : string).

Inductive result (A : Type) : Type :=
  | Ok (a : A)
  | Raise (e : exn).
Arguments Ok {A} a.
Arguments Raise {A} e.

Definition is_ok {A} (r : result A) : bool :=
  match r with Ok _ => true | Raise _ => false end.

(** ** A state and exception monad

    [M S A] is a Python computation over the mutable state [S]: it ends in a
    value or in a raised exception, and in both cases the state it reached is
    kept. *)
Module PyMonad.

Definition M (S A : Type) : Type := S -> S * result A.

Definition ret {S A} (a : A) : M S A := fun s => (s, Ok a).

Definition bind {S A B} (c : M S A) (k : A -> M S B) : M S B :=
  fun s =>
    match c s with
    | (s', Ok a) => k a s'
    | (s', Raise e) => (s', Raise e)
    end.

Definition raise {S A} (e : exn) : M S A := fun s => (s, Raise e).

Definition lift {S A} (r : result A) : M S A := fun s => (s, r).

Definition get {S} : M S S := fun s => (s, Ok s).

Definition modify {S} (f : S -> S) : M S unit := fun s => (f s, Ok tt).

(** [try: body except Exception as e: handler e] *)
Definition try_except {S A} (body : M S A) (handler : exn -> M S A) : M S A :=
  fun s =>
    match body s with
    | (s', Ok a) => (s', Ok a)
    | (s', Raise e) => handler e s'
    end.

(** [for x in xs: body x] *)
Fixpoint for_each {S A} (xs : list A) (body : A -> M S unit) : M S unit :=
  match xs with
  | [] => ret tt
  | x :: xs' => bind (body x) (fun _ => for_each xs' body)
  end.

End PyMonad.
Import PyMonad.

Declare Scope py_scope.
Delimit Scope py_scope with py.
Notation "x <- c ;; k" := (bind c (fun x => k))
  (at level 100, c at next level, right associativity) : py_scope.
Notation "c ;;; k" := (bind c (fun _ => k))
  (at level 100, right associativity) : py_scope.
Local Open Scope py_scope.

(** ** Python numbers and sequences *)

(** [float(n)] for an [int]: correctly rounded, [OverflowError] when the
    rounded value is not finite. *)
Definition float_of_int (n : Z) : result float :=
  let f := SF2Prim (binary_normalize prec emax n 0 false) in
  if PrimFloat.is_infinity f then Raise OverflowError else Ok f.

(** [x / n] for a [float] [x] and an [int] [n]. *)
Definition float_truediv_int (x : float) (n : Z) : result float :=
  match float_of_int n with
  | Raise e => Raise e
  | Ok d => if PrimFloat.eqb d 0%float then Raise ZeroDivisionError
            else Ok (PrimFloat.div x d)
  end.

(** [x >= y] on floats. *)
Definition float_ge (x y : float) : bool := PrimFloat.leb y x.

(** [l[i]] for a list and an [int], negative indices counted from the end. *)
Definition py_getitem {A} (l : list A) (i : Z) : result A :=
  let n := Z.of_nat (length l) in
  let j := if i <? 0 then i + n else i in
  if (j <? 0) || (n <=? j) then Raise IndexError
  else match l !! Z.to_nat j with
       | Some x => Ok x
       | None => Raise IndexError
       end.

(** ** The extracted records

    The dictionaries built by [parse_ros2_bag], one record type per topic;
    the keys are the field names. *)

Record Vector3 := { v_x : float; v_y : float; v_z : float }.
Record Quaternion := { q_x : float; q_y : float; q_z : float; q_w : float }.

Record ImuRecord := {
  imu_timestamp : Z;
  imu_orientation : Quaternion;
  imu_angular_velocity : Vector3;
  imu_linear_acceleration : Vector3;
}.

Record PoseRecord := { position : Vector3; orientation : Quaternion }.
Record PoseWithCovariance := { pose_pose : PoseRecord; pose_covariance : list float }.
Record TwistRecord := { linear : Vector3; angular : Vector3 }.
Record TwistWithCovariance := { twist_twist : TwistRecord; twist_covariance : list float }.

Record OdomRecord := {
  odom_timestamp : Z;
  odom_pose : PoseWithCovariance;
  odom_twist : TwistWithCovariance;
}.

(** [extracted_data], a dictionary with exactly the keys ["/Imu"] and
    ["/odom"]. *)
Record ExtractedData := {
  Imu : list ImuRecord;
  odom : list OdomRecord;
}.

(** ** The timed emitter, [DoraBagOperator] *)

Module Dora.

Inductive DoraStatus := CONTINUE | STOP.

(** The metadata of an event is passed through untouched. *)
Definition event_metadata := list (string * string).

(** [dora_event], a dictionary with the keys ["type"] and ["metadata"]. *)
Record Event := { ev_type : string; ev_metadata : event_metadata }.

(** [json.dumps(record).encode()], kept as the record it encodes. *)
Inductive payload :=
  | json_imu (r : ImuRecord)
  | json_odom (r : OdomRecord).

(** One call [send_output(output_id, data, metadata)]. *)
Record Output := {
  output_id : string;
  data : payload;
  metadata : event_metadata;
}.

Record DoraBagOperator := {
  all_data : ExtractedData;
  imu_index : Z;
  odom_index : Z;
  last_send_time : float;
  send_frequency : Z;
}.

(** What a call can change: the operator, the calls of [send_output] made so
    far and the lines printed so far (both oldest first). *)
Record Env := {
  self : DoraBagOperator;
  sent : list Output;
  stdout : list string;
}.

Definition send_output (id : string) (d : payload) (m : event_metadata) : M Env unit :=
  modify (fun w => {| self := self w; sent := sent w ++ [Build_Output id d m];
                      stdout := stdout w |}).

Definition print (line : string) : M Env unit :=
  modify (fun w => {| self := self w; sent := sent w; stdout := stdout w ++ [line] |}).

Definition update (f : DoraBagOperator -> DoraBagOperator) : M Env unit :=
  modify (fun w => {| self := f (self w); sent := sent w; stdout := stdout w |}).

Definition get_self : M Env DoraBagOperator := o <- get ;; ret (self o).

Definition set_imu_index (i : Z) (o : DoraBagOperator) : DoraBagOperator :=
  {| all_data := all_data o; imu_index := i; odom_index := odom_index o;
     last_send_time := last_send_time o; send_frequency := send_frequency o |}.

Definition set_odom_index (i : Z) (o : DoraBagOperator) : DoraBagOperator :=
  {| all_data := all_data o; imu_index := imu_index o; odom_index := i;
     last_send_time := last_send_time o; send_frequency := send_frequency o |}.

Definition set_last_send_time (t : float) (o : DoraBagOperator) : DoraBagOperator :=
  {| all_data := all_data o; imu_index := imu_index o; odom_index := odom_index o;
     last_send_time := t; send_frequency := send_frequency o |}.

(** [__init__], with the reading of [time.time()]. *)
Definition init (now : float) : DoraBagOperator :=
  {| all_data := {| Imu := []; odom := [] |};
     imu_index := 0; odom_index := 0;
     last_send_time := now; send_frequency := 10 |}.

Definition len {A} (l : list A) : Z := Z.of_nat (length l).

(** The IMU half of a tick. *)
Definition send_imu (dora_event : Event) : M Env unit :=
  o <- get_self ;;
  if imu_index o <? len (Imu (all_data o)) then
    imu_message <- lift (py_getitem (Imu (all_data o)) (imu_index o)) ;;
    send_output "imu_json" (json_imu imu_message) (ev_metadata dora_event) ;;;
    update (fun o => set_imu_index (imu_index o + 1) o)
  else ret tt.

(** The odometry half of a tick. *)
Definition send_odom (dora_event : Event) : M Env unit :=
  o <- get_self ;;
  if odom_index o <? len (odom (all_data o)) then
    odom_message <- lift (py_getitem (odom (all_data o)) (odom_index o)) ;;
    send_output "odom_json" (json_odom odom_message) (ev_metadata dora_event) ;;;
    update (fun o => set_odom_index (odom_index o + 1) o)
  else ret tt.

(** [on_event]; [now] is what [time.time()] returns during the call. *)
Definition on_event (dora_event : Event) (now : float) : M Env DoraStatus :=
  let event_type := ev_type dora_event in
  if String.eqb event_type "INPUT" then
    ret CONTINUE
  else if String.eqb event_type "TIMER_TICK" then
    let current_time := now in
    o <- get_self ;;
    interval <- lift (float_truediv_int 1%float (send_frequency o)) ;;
    if float_ge (PrimFloat.sub current_time (last_send_time o)) interval then
      send_imu dora_event ;;;
      send_odom dora_event ;;;
      update (set_last_send_time current_time) ;;;
      o <- get_self ;;
      if (len (Imu (all_data o)) <=? imu_index o)
         && (len (odom (all_data o)) <=? odom_index o) then
        print "Finished sending all IMU and Odom data." ;;;
        ret STOP
      else ret CONTINUE
    else ret CONTINUE
  else if String.eqb event_type "STOP" then
    print "received stop" ;;;
    ret CONTINUE
  else
    print (String.append "received unexpected event: " event_type) ;;;
    ret CONTINUE.

End Dora.

(** ** Driving the operator

    The host calls [on_event] once per event.  [call] is one such call seen
    from outside: the operator afterwards, what the call sent and printed, and
    what it returned or raised.  [run] is a sequence of calls, each with the
    clock reading of its moment; the host is free to go on after [STOP] or
    after an exception, so [run] does. *)
Module Host.
Import Dora.

Record Call := {
  call_sent : list Output;
  call_printed : list string;
  call_result : result DoraStatus;
}.

Definition call (o : DoraBagOperator) (ev : Event) (now : float)
  : DoraBagOperator * Call :=
  match on_event ev now {| self := o; sent := []; stdout := [] |} with
  | (w, r) => (self w, {| call_sent := sent w; call_printed := stdout w;
                          call_result := r |})
  end.

Fixpoint run (o : DoraBagOperator) (evs : list (Event * float))
  : DoraBagOperator * list Call :=
  match evs with
  | [] => (o, [])
  | (ev, now) :: evs' =>
      let '(o1, c) := call o ev now in
      let '(o2, cs) := run o1 evs' in
      (o2, c :: cs)
  end.

Definition tick (m : event_metadata) : Event :=
  {| ev_type := "TIMER_TICK"; ev_metadata := m |}.

Definition stop_signal (m : event_metadata) : Event :=
  {| ev_type := "STOP"; ev_metadata := m |}.

(** What [main] does with the extraction result and [--frequency]. *)
Definition configure (d : ExtractedData) (frequency : Z) (o : DoraBagOperator)
  : DoraBagOperator :=
  {| all_data := d; imu_index := imu_index o; odom_index := odom_index o;
     last_send_time := last_send_time o; send_frequency := frequency |}.

(** All the calls of [send_output] of a run, oldest first. *)
Definition outputs (cs : list Call) : list Output :=
  concat (map call_sent cs).

Definition statuses (cs : list Call) : list (result DoraStatus) :=
  map call_result cs.

Definition has_tag (t : string) (out : Output) : bool :=
  String.eqb (output_id out) t.

(** A call that sent nothing. *)
Definition quiet (r : result DoraStatus) (printed : list string) : Call :=
  {| call_sent := []; call_printed := printed; call_result := r |}.

(** Did the call send anything? *)
Definition sends (c : Call) : bool :=
  match call_sent c with [] => false | _ :: _ => true end.

Definition count_tag (t : string) (outs : list Output) : nat :=
  length (List.filter (has_tag t) outs).

(** Nothing is left to send. *)
Definition exhausted (o : DoraBagOperator) : Prop :=
  len (Imu (all_data o)) <= imu_index o /\ len (odom (all_data o)) <= odom_index o.

(** The 1-based position of the first call that returned [STOP]. *)
Fixpoint first_stop (rs : list (result DoraStatus)) : option nat :=
  match rs with
  | [] => None
  | Ok STOP :: _ => Some 1%nat
  | _ :: rs' => option_map S (first_stop rs')
  end.

Definition imu_output (r : ImuRecord) (m : event_metadata) : Output :=
  {| output_id := "imu_json"; data := json_imu r; metadata := m |}.

Definition odom_output (r : OdomRecord) (m : event_metadata) : Output :=
  {| output_id := "odom_json"; data := json_odom r; metadata := m |}.

(** [0.1], the double nearest to one tenth; it is [1.0 / 10]. *)
Definition one_tenth : float := 0x1.999999999999ap-4%float.

(** The emitter scenario: frequency 10, three IMU records, one odometry
    record, four ticks. *)
Definition scenario_operator (a b c : ImuRecord) (d : OdomRecord) (t0 : float)
  : DoraBagOperator :=
  configure {| Imu := [a; b; c]; odom := [d] |} 10 (init t0).

Definition scenario_ticks (m : event_metadata) (t1 t2 t3 t4 : float)
  : list (Event * float) :=
  [(tick m, t1); (tick m, t2); (tick m, t3); (tick m, t4)].

(** The emitter scenario as the specification words it: three IMU
    emissions, one odometry emission, in index order, and the first [STOP]
    on the fourth tick. *)
Definition scenario_stops_on_fourth_tick : Prop :=
  forall (a b c : ImuRecord) (d : OdomRecord) (m : event_metadata)
         (t0 t1 t2 t3 t4 : float),
    float_ge (PrimFloat.sub t1 t0) one_tenth = true ->
    float_ge (PrimFloat.sub t2 t1) one_tenth = true ->
    float_ge (PrimFloat.sub t3 t2) one_tenth = true ->
    float_ge (PrimFloat.sub t4 t3) one_tenth = true ->
    let cs := (run (scenario_operator a b c d t0) (scenario_ticks m t1 t2 t3 t4)).2 in
    List.filter (has_tag "imu_json") (outputs cs)
      = [imu_output a m; imu_output b m; imu_output c m]
    /\ List.filter (has_tag "odom_json") (outputs cs) = [odom_output d m]
    /\ first_stop (statuses cs) = Some 4%nat.


End Host.

(** ** Sample values *)
Module Sample.

Definition zero3 : Vector3 := {| v_x := 0; v_y := 0; v_z := 0 |}.
Definition unit_q : Quaternion := {| q_x := 0; q_y := 0; q_z := 0; q_w := 1 |}.

Definition imu_at (timestamp : Z) : ImuRecord :=
  {| imu_timestamp := timestamp; imu_orientation := unit_q;
     imu_angular_velocity := zero3; imu_linear_acceleration := zero3 |}.

Definition still_pose : PoseWithCovariance :=
  {| pose_pose := {| position := zero3; orientation := unit_q |};
     pose_covariance := [] |}.

Definition still_twist : TwistWithCovariance :=
  {| twist_twist := {| linear := zero3; angular := zero3 |};
     twist_covariance := [] |}.

Definition odom_at (timestamp : Z) : OdomRecord :=
  {| odom_timestamp := timestamp; odom_pose := still_pose;
     odom_twist := still_twist |}.

(** An operator with one IMU record left to send, last emission at time 0. *)
Definition one_left : Dora.DoraBagOperator :=
  Host.configure {| Imu := [imu_at 1]; odom := [] |} 10 (Dora.init 0).

(** An operator with two IMU records left to send. *)
Definition two_left : Dora.DoraBagOperator :=
  Host.configure {| Imu := [imu_at 1; imu_at 2]; odom := [] |} 10 (Dora.init 0).

End Sample.

(** ** The file system

    What [os.path] and [os] answer: a tree of directories and files, and a
    working directory.  Paths are resolved as POSIX does, symbolic links
    apart.  A directory says whether its entries can be read: listing one
    that does not allow it fails with [PermissionError], an [OSError]. *)
Module Posix.

#[local] Set Warnings "-register-all".
Inductive node : Type :=
  | File (size : Z)
  | Dir (listable : bool) (entries : list (string * node)).

Record FileSystem := {
  root : node;
  cwd : list string;
}.

Fixpoint find_entry (name : string) (entries : list (string * node)) : option node :=
  match entries with
  | [] => None
  | (n, x) :: rest => if String.eqb n name then Some x else find_entry name rest
  end.

(** The node at a canonical location, given as the names from the root. *)
Fixpoint lookup_node (n : node) (loc : list string) : option node :=
  match loc with
  | [] => Some n
  | name :: loc' =>
      match n with
      | File _ => None
      | Dir _ entries =>
          match find_entry name entries with
          | Some n' => lookup_node n' loc'
          | None => None
          end
      end
  end.

Definition is_slash (c : ascii) : bool := Ascii.eqb c "/"%char.

(** [p.split('/')] *)
Fixpoint split_slash (p : string) : list string :=
  match p with
  | EmptyString => [EmptyString]
  | String c r =>
      if is_slash c then EmptyString :: split_slash r
      else match split_slash r with
           | h :: t => String c h :: t
           | [] => [String c EmptyString]
           end
  end.

(** One component of a path, from the location [loc]: the location must be
    a directory; an empty component and ["."] stay, [".."] goes up, a name
    goes down to an existing entry. *)
Definition step_component (fs : FileSystem) (loc : option (list string)) (c : string)
  : option (list string) :=
  match loc with
  | None => None
  | Some loc =>
      match lookup_node (root fs) loc with
      | Some (Dir _ _) =>
          if String.eqb c "" || String.eqb c "." then Some loc
          else if String.eqb c ".." then Some (removelast loc)
          else match lookup_node (root fs) (loc ++ [c]) with
               | Some _ => Some (loc ++ [c])
               | None => None
               end
      | _ => None
      end
  end.

(** [stat(p)]: the node a path names, if any.  The empty path names
    nothing. *)
Definition resolve (fs : FileSystem) (p : string) : option node :=
  match p with
  | EmptyString => None
  | String c _ =>
      let start := if is_slash c then [] else cwd fs in
      match fold_left (step_component fs) (split_slash p) (Some start) with
      | Some loc => lookup_node (root fs) loc
      | None => None
      end
  end.

(** [os.path.exists], [os.path.isfile], [os.path.isdir] *)
Definition path_exists (fs : FileSystem) (p : string) : bool :=
  match resolve fs p with Some _ => true | None => false end.

Definition isfile (fs : FileSystem) (p : string) : bool :=
  match resolve fs p with Some (File _) => true | _ => false end.

Definition isdir (fs : FileSystem) (p : string) : bool :=
  match resolve fs p with Some (Dir _ _) => true | _ => false end.

(** [os.listdir] *)
Definition listdir (fs : FileSystem) (p : string) : result (list string) :=
  match resolve fs p with
  | Some (Dir true entries) => Ok (map fst entries)
  | Some (Dir false _) => Raise (OSError "Permission denied")
  | Some (File _) => Raise (OSError "Not a directory")
  | None => Raise (OSError "No such file or directory")
  end.

(** The sum of [os.path.getsize] over every file [os.walk] finds below a
    node; [os.walk] passes over a directory it cannot list. *)
Fixpoint tree_size (n : node) : Z :=
  match n with
  | File size => size
  | Dir false _ => 0
  | Dir true entries =>
      (fix sum (es : list (string * node)) : Z :=
         match es with
         | [] => 0
         | (_, x) :: es' => tree_size x + sum es'
         end) entries
  end.

(** The [os.walk] loop of the summary: [total_size].  [os.walk] yields
    nothing for a path that is not a directory. *)
Definition walk_total_size (fs : FileSystem) (p : string) : Z :=
  match resolve fs p with
  | Some (Dir listable entries) => tree_size (Dir listable entries)
  | _ => 0
  end.

(** [s.endswith(suffix)] *)
Fixpoint endswith (s suffix : string) : bool :=
  String.eqb s suffix
  || match s with
     | EmptyString => false
     | String _ r => endswith r suffix
     end.

(** [(p[:i], p[i:])] for [i = p.rfind('/') + 1], when [p] has a slash. *)
Fixpoint split_last_slash (p : string) : option (string * string) :=
  match p with
  | EmptyString => None
  | String c r =>
      match split_last_slash r with
      | Some (h, t) => Some (String c h, t)
      | None => if is_slash c then Some (String c EmptyString, r) else None
      end
  end.

Fixpoint all_slashes (s : string) : bool :=
  match s with
  | EmptyString => true
  | String c r => is_slash c && all_slashes r
  end.

(** [s.rstrip('/')] *)
Fixpoint rstrip_slash (s : string) : string :=
  match s with
  | EmptyString => EmptyString
  | String c r =>
      match rstrip_slash r with
      | EmptyString => if is_slash c then EmptyString else String c EmptyString
      | r' => String c r'
      end
  end.

(** [os.path.dirname] *)
Definition dirname (p : string) : string :=
  let head := match split_last_slash p with Some (h, _) => h | None => "" end in
  if negb (String.eqb head "") && negb (all_slashes head) then rstrip_slash head
  else head.

(** [os.path.basename] *)
Definition basename (p : string) : string :=
  match split_last_slash p with Some (_, t) => t | None => p end.

(** Does the path have a directory part? *)
Fixpoint contains_slash (p : string) : bool :=
  match p with
  | EmptyString => false
  | String c r => is_slash c || contains_slash r
  end.

End Posix.

(** ** The bag reader and the deserializer, as the code sees them *)
Module Rosbags.

(** A connection: [connection.topic], [connection.msgtype] and
    [connection.ext.serialization_format]. *)
Record Connection := {
  topic : string;
  msgtype : string;
  serialization_format : string;
}.

(** [reader.metadata], with the fields the summary reads. *)
Record Metadata := {
  duration_nanoseconds : Z;
  starting_time_nanoseconds_since_epoch : Z;
  message_count : Z;
  storage_identifier : string;
  topics_with_message_count : list (string * Z);
}.

(** One item of [reader.messages()]: connection, timestamp, rawdata. *)
Definition RawMessage : Type := Connection * Z * list byte.

(** An open reader.  [messages] are yielded in storage order; when
    [messages_failure] is an exception, the iterator raises it after the
    last of them. *)
Record Reader := {
  metadata : Metadata;
  connections : list Connection;
  messages : list RawMessage;
  messages_failure : option exn;
}.

(** A deserialized message, by the attributes it has: those of an IMU
    message, those of an odometry message, or neither. *)
Inductive Msg :=
  | MsgImu (orientation : Quaternion) (angular_velocity linear_acceleration : Vector3)
  | MsgOdom (pose : PoseWithCovariance) (twist : TwistWithCovariance)
  | MsgOther.

End Rosbags.

(** ** Locator, summary and extraction *)
Module Bag.
Import Posix Rosbags.

(** [bag_file_name]: the base name of the given file, or the list
    [db3_files]. *)
Inductive BagFileName :=
  | BaseName (name : string)
  | Db3Files (names : list string).

(** The lines [parse_ros2_bag] prints, each with the values its text is
    formatted from. *)
Inductive LogLine :=
  | ErrorPathDoesNotExist (bag_path : string)
  | WarningDb3Provided (bag_path : string)
  | ErrorNoDb3Found (bag_path : string)
  | ErrorNotBagOrDb3 (original_bag_path : string)
  | ErrorNotBagDirectory (bag_path : string)
  | ParsingFrom (bag_path : string)
  | LineFiles (bag_file_name : BagFileName)
  | LineBagSize (bag_size_mib : float)
  | LineStorageId (storage_id : string)
  | LineDuration (duration_s : float)
  | LineStart (start_datetime : string) (start_s : float)
  | LineEnd (end_datetime : string) (end_s : float)
  | LineMessages (total_messages : Z)
  | LineTopicInformation
  | LineTopic (topic_name type : string) (count : Z) (format : string)
  | LineExtractedImu (n : Z)
  | LineExtractedOdom (n : Z)
  | ErrorParsing (e : exn).

Definition print {S} (line : LogLine) : M (list LogLine * S) unit :=
  modify (fun '(out, s) => (out ++ [line], s)).

(** [n / 1e9] for an [int] [n]. *)
Definition int_truediv_1e9 (n : Z) : result float :=
  match float_of_int n with
  | Raise e => Raise e
  | Ok x => Ok (PrimFloat.div x 1e9%float)
  end.

(** [n / (1024 * 1024)] for an [int] [n]: the quotient of two integers,
    correctly rounded. *)
Definition int_truediv_mib (n : Z) : result float :=
  let f := SF2Prim (binary_normalize prec emax n (-20) false) in
  if PrimFloat.is_infinity f then Raise OverflowError else Ok f.

(** [topic_message_counts]: a later item of the list replaces an earlier
    one of the same name. *)
Definition topic_message_counts (md : Metadata) : gmap string Z :=
  foldl (fun m item => <[item.1 := item.2]> m) ∅ (topics_with_message_count md).

(** The reshaping of an IMU message; a missing attribute raises. *)
Definition reshape_imu (timestamp : Z) (msg : Msg) : result ImuRecord :=
  match msg with
  | MsgImu o a l =>
      Ok {| imu_timestamp := timestamp; imu_orientation := o;
            imu_angular_velocity := a; imu_linear_acceleration := l |}
  | _ => Raise (AttributeError "orientation")
  end.

(** The reshaping of an odometry message. *)
Definition reshape_odom (timestamp : Z) (msg : Msg) : result OdomRecord :=
  match msg with
  | MsgOdom p t =>
      Ok {| odom_timestamp := timestamp; odom_pose := p; odom_twist := t |}
  | _ => Raise (AttributeError "pose")
  end.

Definition append_imu (r : ImuRecord) (d : ExtractedData) : ExtractedData :=
  {| Imu := Imu d ++ [r]; odom := odom d |}.

Definition append_odom (r : OdomRecord) (d : ExtractedData) : ExtractedData :=
  {| Imu := Imu d; odom := odom d ++ [r] |}.

Section WithEnvironment.

Variable fs : FileSystem.
(** [Reader(bag_path).__enter__()] *)
Variable open_reader : string -> result Reader.
(** [datetime.datetime.fromtimestamp(x)], as the text its [strftime]
    gives. *)
Variable fromtimestamp : float -> result string.
(** [deserialize_cdr(rawdata, msgtype)] *)
Variable deserialize_cdr : list byte -> string -> result Msg.

(** The first lines of [parse_ros2_bag], up to the check of the bag
    directory: [None] after a printed error, else [bag_path] and
    [bag_file_name]. *)
Definition locate {S} (bag_path : string)
  : M (list LogLine * S) (option (string * BagFileName)) :=
  let original_bag_path := bag_path in
  if negb (path_exists fs bag_path) then
    print (ErrorPathDoesNotExist bag_path) ;;;
    ret None
  else
    r <- (if isfile fs bag_path && endswith bag_path ".db3" then
            let bag_file_name := basename bag_path in
            let bag_path := dirname bag_path in
            print (WarningDb3Provided bag_path) ;;;
            ret (Some (bag_path, BaseName bag_file_name))
          else if isdir fs bag_path then
            names <- lift (listdir fs bag_path) ;;
            let db3_files := List.filter (fun f => endswith f ".db3") names in
            match db3_files with
            | [] => print (ErrorNoDb3Found bag_path) ;;; ret None
            | _ => ret (Some (bag_path, Db3Files db3_files))
            end
          else
            print (ErrorNotBagOrDb3 original_bag_path) ;;;
            ret None) ;;
    match r with
    | None => ret None
    | Some (bag_path, bag_file_name) =>
        if negb (isdir fs bag_path) then
          print (ErrorNotBagDirectory bag_path) ;;;
          ret None
        else ret (Some (bag_path, bag_file_name))
    end.

(** The summary: the body of the [with] block up to the topic lines. *)
Definition summary {S} (bag_path : string) (bag_file_name : BagFileName)
    (reader : Reader) : M (list LogLine * S) unit :=
  let total_size := walk_total_size fs bag_path in
  bag_size_mib <- lift (int_truediv_mib total_size) ;;
  let metadata := metadata reader in
  let duration_ns := duration_nanoseconds metadata in
  duration_s <- lift (int_truediv_1e9 duration_ns) ;;
  let start_time_ns := starting_time_nanoseconds_since_epoch metadata in
  let end_time_ns := start_time_ns + duration_ns in
  start_s <- lift (int_truediv_1e9 start_time_ns) ;;
  start_datetime <- lift (fromtimestamp start_s) ;;
  end_s <- lift (int_truediv_1e9 end_time_ns) ;;
  end_datetime <- lift (fromtimestamp end_s) ;;
  let total_messages := message_count metadata in
  print (LineFiles bag_file_name) ;;;
  print (LineBagSize bag_size_mib) ;;;
  print (LineStorageId (storage_identifier metadata)) ;;;
  print (LineDuration duration_s) ;;;
  print (LineStart start_datetime start_s) ;;;
  print (LineEnd end_datetime end_s) ;;;
  print (LineMessages total_messages) ;;;
  print LineTopicInformation ;;;
  let topic_message_counts := topic_message_counts metadata in
  for_each (connections reader) (fun connection =>
    let topic_name := topic connection in
    let message_count := default 0 (topic_message_counts !! topic_name) in
    print (LineTopic topic_name (msgtype connection) message_count
             (serialization_format connection))).

(** The body of the extraction loop, on [extracted_data]. *)
Definition extract_message {S} (m : RawMessage) : M (S * ExtractedData) unit :=
  let '(connection, timestamp, rawdata) := m in
  if String.eqb (topic connection) "/Imu" then
    msg <- lift (deserialize_cdr rawdata (msgtype connection)) ;;
    r <- lift (reshape_imu timestamp msg) ;;
    modify (fun '(out, d) => (out, append_imu r d))
  else if String.eqb (topic connection) "/odom" then
    msg <- lift (deserialize_cdr rawdata (msgtype connection)) ;;
    r <- lift (reshape_odom timestamp msg) ;;
    modify (fun '(out, d) => (out, append_odom r d))
  else ret tt.

(** The loop over [reader.messages()]. *)
Definition extract {S} (reader : Reader) : M (S * ExtractedData) unit :=
  for_each (messages reader) extract_message ;;;
  match messages_failure reader with
  | Some e => raise e
  | None => ret tt
  end.

(** [locate] seen from outside: the lines printed and the outcome. *)
Definition run_locate (bag_path : string)
  : list LogLine * result (option (string * BagFileName)) :=
  match locate bag_path ([], tt) with
  | ((out, _), r) => (out, r)
  end.

(** [db3_files], for a directory; nothing when it cannot be listed. *)
Definition db3_entries (bag_path : string) : list string :=
  match listdir fs bag_path with
  | Ok names => List.filter (fun f => endswith f ".db3") names
  | Raise _ => []
  end.

Definition on_topic (t : string) (m : RawMessage) : bool :=
  String.eqb (topic m.1.1) t.

(** What the loop appends for a message on ["/odom"]. *)
Definition odom_record (m : RawMessage) : result OdomRecord :=
  match deserialize_cdr m.2 (msgtype m.1.1) with
  | Raise e => Raise e
  | Ok msg => reshape_odom m.1.2 msg
  end.

(** The odometry records of a list of messages, in the order of the
    list. *)
Definition odom_records (ms : list RawMessage) : list OdomRecord :=
  flat_map (fun m => if on_topic "/odom" m
                     then match odom_record m with Ok r => [r] | Raise _ => [] end
                     else []) ms.

(** Every message on ["/odom"] deserializes and has the attributes of
    an odometry message. *)
Definition odom_decodable (ms : list RawMessage) : bool :=
  forallb (fun m => if on_topic "/odom" m then is_ok (odom_record m) else true) ms.

(** The topic line of a connection. *)
Definition topic_line (md : Metadata) (connection : Connection) : LogLine :=
  LineTopic (topic connection) (msgtype connection)
    (default 0 (topic_message_counts md !! topic connection))
    (serialization_format connection).

(** A message on a recognized topic that [deserialize_cdr] rejects. *)
Definition undecodable (m : RawMessage) : bool :=
  (on_topic "/Imu" m || on_topic "/odom" m)
  && negb (is_ok (deserialize_cdr m.2 (msgtype m.1.1))).

End WithEnvironment.

Definition is_parse_error (line : LogLine) : bool :=
  match line with ErrorParsing _ => true | _ => false end.

Definition is_end_line (line : LogLine) : bool :=
  match line with LineEnd _ _ => true | _ => false end.

(** The locator as the specification words it. *)
Definition locator_as_specified : Prop :=
  forall (fs : FileSystem) (p : string),
    (path_exists fs p = false ->
     run_locate fs p = ([ErrorPathDoesNotExist p], Ok None))
    /\ (isfile fs p && endswith p ".db3" = true ->
        run_locate fs p
        = ([WarningDb3Provided (dirname p)],
           Ok (Some (dirname p, BaseName (basename p)))))
    /\ (isdir fs p = true -> db3_entries fs p = [] ->
        run_locate fs p = ([ErrorNoDb3Found p], Ok None))
    /\ (path_exists fs p = true ->
        isfile fs p && endswith p ".db3" = false ->
        ~ (isdir fs p = true /\ db3_entries fs p = []) ->
        run_locate fs p = ([ErrorNotBagOrDb3 p], Ok None)).

End Bag.

(** ** [ros2bag_read.py] *)
Module Ros2bagRead.
Import Posix Rosbags Bag.

Section WithEnvironment.
Variable fs : FileSystem.
Variable open_reader : string -> result Reader.
Variable fromtimestamp : float -> result string.

(** [parse_ros2_bag]: the state is the standard output; the function
    returns nothing. *)
Definition parse_ros2_bag (bag_path : string) : M (list LogLine * unit) unit :=
  located <- locate fs bag_path ;;
  match located with
  | None => ret tt
  | Some (bag_path, bag_file_name) =>
      print (ParsingFrom bag_path) ;;;
      try_except
        (reader <- lift (open_reader bag_path) ;;
         summary fs fromtimestamp bag_path bag_file_name reader)
        (fun e => print (ErrorParsing e))
  end.

Definition run_parse (bag_path : string) : list LogLine * result unit :=
  match parse_ros2_bag bag_path ([], tt) with
  | ((out, _), r) => (out, r)
  end.

End WithEnvironment.
End Ros2bagRead.

(** ** [ros2bag_to_dora.py] *)
Module Ros2bagToDora.
Import Posix Rosbags Bag.

Section WithEnvironment.
Variable fs : FileSystem.
Variable open_reader : string -> result Reader.
Variable fromtimestamp : float -> result string.
Variable deserialize_cdr : list byte -> string -> result Msg.

Definition empty_data : ExtractedData := {| Imu := []; odom := [] |}.

(** The body of [with Reader(bag_path) as reader]. *)
Definition reader_block (bag_path : string) (bag_file_name : BagFileName)
  : M (list LogLine * ExtractedData) (option ExtractedData) :=
  reader <- lift (open_reader bag_path) ;;
  summary fs fromtimestamp bag_path bag_file_name reader ;;;
  modify (fun '(out, _) => (out, empty_data)) ;;;
  extract deserialize_cdr reader ;;;
  st <- get ;;
  let extracted_data := st.2 in
  print (LineExtractedImu (Z.of_nat (length (Imu extracted_data)))) ;;;
  print (LineExtractedOdom (Z.of_nat (length (odom extracted_data)))) ;;;
  ret (Some extracted_data).

(** [parse_ros2_bag]: the state is the standard output and the local
    [extracted_data]; the result is what the function returns, [None]
    for a bare [return]. *)
Definition parse_ros2_bag (bag_path : string)
  : M (list LogLine * ExtractedData) (option ExtractedData) :=
  located <- locate fs bag_path ;;
  match located with
  | None => ret None
  | Some (bag_path, bag_file_name) =>
      print (ParsingFrom bag_path) ;;;
      try_except
        (reader_block bag_path bag_file_name)
        (fun e => print (ErrorParsing e) ;;; ret None)
  end.

(** A call of [parse_ros2_bag] seen from outside: the lines printed and
    what came back. *)
Definition run_parse (bag_path : string)
  : list LogLine * result (option ExtractedData) :=
  match parse_ros2_bag bag_path ([], empty_data) with
  | ((out, _), r) => (out, r)
  end.

End WithEnvironment.

Definition with_messages (r : Reader) (ms : list RawMessage) : Reader :=
  {| metadata := metadata r; connections := connections r;
     messages := ms; messages_failure := messages_failure r |}.

(** The extraction as the specification words it: a message on a
    recognized topic that fails to deserialize is skipped, and the result
    is the one of the bag without that message. *)
Definition failed_message_is_skipped : Prop :=
  forall (fs : FileSystem) (fromtimestamp : float -> result string)
         (deserialize_cdr : list byte -> string -> result Msg)
         (reader : Reader) (before after : list RawMessage) (m : RawMessage)
         (bag_path : string),
    messages reader = before ++ m :: after ->
    undecodable deserialize_cdr m = true ->
    (run_parse fs (fun _ => Ok reader) fromtimestamp deserialize_cdr bag_path).2
    = (run_parse fs (fun _ => Ok (with_messages reader (before ++ after)))
         fromtimestamp deserialize_cdr bag_path).2.

End Ros2bagToDora.

(** ** A sample bag *)
Module SampleBag.
Import Posix Rosbags Bag.

(** [/home/foo] is a bag directory, [/home/bar.db3] a data file next to
    it, [/home/empty] an empty directory; the working directory is
    [/home]. *)
Definition fs : FileSystem :=
  {| root := Dir true
               [("home",
                 Dir true [("foo", Dir true [("bar.db3", File 10);
                                             ("metadata.yaml", File 5)]);
                           ("bar.db3", File 3);
                           ("notes.txt", File 1);
                           ("empty", Dir true [])])];
     cwd := ["home"] |}.

Definition imu_connection : Connection :=
  {| topic := "/Imu"; msgtype := "sensor_msgs/msg/Imu";
     serialization_format := "cdr" |}.

Definition odom_connection : Connection :=
  {| topic := "/odom"; msgtype := "nav_msgs/msg/Odometry";
     serialization_format := "cdr" |}.

Definition scan_connection : Connection :=
  {| topic := "/scan"; msgtype := "sensor_msgs/msg/LaserScan";
     serialization_format := "cdr" |}.

Definition sample_metadata : Metadata :=
  {| duration_nanoseconds := 2500000000;
     starting_time_nanoseconds_since_epoch := 1700000000000000000;
     message_count := 3;
     storage_identifier := "sqlite3";
     topics_with_message_count := [("/odom", 2); ("/scan", 1)] |}.

(** Two odometry messages around a laser scan. *)
Definition odom_reader : Reader :=
  {| metadata := sample_metadata;
     connections := [odom_connection; scan_connection];
     messages := [(odom_connection, 10, [x01]); (scan_connection, 11, [x02]);
                  (odom_connection, 12, [x01])];
     messages_failure := None |}.

(** An IMU message with a payload that does not deserialize, then an
    odometry message. *)
Definition corrupt_reader : Reader :=
  {| metadata := sample_metadata;
     connections := [imu_connection; odom_connection];
     messages := [(imu_connection, 10, []); (odom_connection, 12, [x01])];
     messages_failure := None |}.

(** A deserializer that rejects the empty payload. *)
Definition deserialize_cdr (rawdata : list byte) (msgtype : string) : result Msg :=
  match rawdata with
  | [] => Raise (LibraryError "not enough data")
  | _ =>
      if String.eqb msgtype "nav_msgs/msg/Odometry"
      then Ok (MsgOdom Sample.still_pose Sample.still_twist)
      else if String.eqb msgtype "sensor_msgs/msg/Imu"
      then Ok (MsgImu Sample.unit_q Sample.zero3 Sample.zero3)
      else Ok MsgOther
  end.

Definition fromtimestamp (x : float) : result string := Ok "Nov 14 2023 22:13:20.000".

Definition open_odom (bag_path : string) : result Reader := Ok odom_reader.
Definition open_corrupt (bag_path : string) : result Reader := Ok corrupt_reader.
Definition open_fails (bag_path : string) : result Reader :=
  Raise (LibraryError "metadata.yaml is missing").

End SampleBag.

(** ** What a run has sent *)
Module Emission.
Import Dora Host.

(** [l[i:j]] for [0 <= i <= j]. *)
Definition slice {A} (l : list A) (i j : Z) : list A :=
  take (Z.to_nat (j - i)) (drop (Z.to_nat i) l).

(** Both indices are positions of their sequences, the end included. *)
Definition in_range (o : DoraBagOperator) : Prop :=
  0 <= imu_index o <= len (Imu (all_data o))
  /\ 0 <= odom_index o <= len (odom (all_data o)).

(** The payloads sent under a tag, oldest first. *)
Definition payloads (t : string) (outs : list Output) : list payload :=
  map data (List.filter (has_tag t) outs).

(** The test before [return DoraStatus.STOP]. *)
Definition finished (o : DoraBagOperator) : bool :=
  (len (Imu (all_data o)) <=? imu_index o) && (len (odom (all_data o)) <=? odom_index o).

(** A [TIMER_TICK] passes the interval test. *)
Definition gate_open (o : DoraBagOperator) (now : float) : bool :=
  match float_truediv_int 1 (send_frequency o) with
  | Ok interval => float_ge (PrimFloat.sub now (last_send_time o)) interval
  | Raise _ => false
  end.

(** Every tick of the list passes the interval test against the tick
    before it, the first one against [last]. *)
Fixpoint all_open (frequency : Z) (last : float) (ticks : list float) : bool :=
  match ticks with
  | [] => true
  | now :: ticks' =>
      match float_truediv_int 1 frequency with
      | Ok interval =>
          float_ge (PrimFloat.sub now last) interval && all_open frequency now ticks'
      | Raise _ => false
      end
  end.

(** Some call of the run returned [STOP]. *)
Definition stopped (cs : list Call) : bool :=
  existsb (fun c => match call_result c with Ok STOP => true | _ => false end) cs.

(** The ticks of a clock, all with the same metadata. *)
Definition ticks_at (m : event_metadata) (clock : list float) : list (Event * float) :=
  map (fun now => (tick m, now)) clock.

End Emission.

(** ** [main] of [ros2bag_to_dora.py]

    The arguments are those [argparse] hands over: the path and the integer
    [--frequency].  The clock is the reading [time.time()] gives to
    [__init__] and the readings it gives to the calls of [on_event], one per
    tick, in order. *)
Module Main.
Import Dora Host Posix Rosbags Bag.

(** The lines on standard output. *)
Inductive MainLine :=
  | FromParse (line : LogLine)
  | ReadyToSend
  | Simulating (frequency : Z)
  | Sending (output_id : string) (data : payload)
  | FromOperator (line : string).

(** How the program ends, as far as the clock readings go. *)
Inductive Exit :=
  | Returned
  | Uncaught (e : exn)
  | SleepValueError
  | Running (o : DoraBagOperator).

(** The lines of one call of [on_event] on a tick: the callback prints
    each output when it is sent, [on_event] prints after sending. *)
Definition call_lines (c : Call) : list MainLine :=
  map (fun out => Sending (output_id out) (data out)) (call_sent c)
  ++ map FromOperator (call_printed c).

(** The [while] loop; [time.sleep] rejects a negative length. *)
Fixpoint simulate (frequency : Z) (o : DoraBagOperator) (clock : list float)
  : list MainLine * Exit :=
  match clock with
  | [] => ([], Running o)
  | now :: clock' =>
      let '(o', c) := call o (tick []) now in
      match call_result c with
      | Raise e => (call_lines c, Uncaught e)
      | Ok STOP => (call_lines c, Returned)
      | Ok CONTINUE =>
          match float_truediv_int 1 frequency with
          | Raise e => (call_lines c, Uncaught e)
          | Ok length =>
              if PrimFloat.ltb length 0 then (call_lines c, SleepValueError)
              else let '(rest, exit) := simulate frequency o' clock' in
                   (call_lines c ++ rest, exit)
          end
      end
  end.

Section WithEnvironment.
Variable fs : FileSystem.
Variable open_reader : string -> result Reader.
Variable fromtimestamp : float -> result string.
Variable deserialize_cdr : list byte -> string -> result Msg.

(** [main]; [if extracted_data] holds whenever a structure came back, a
    dictionary with two keys being true. *)
Definition main (bag_path : string) (frequency : Z) (t0 : float) (clock : list float)
  : list MainLine * Exit :=
  match Ros2bagToDora.run_parse fs open_reader fromtimestamp deserialize_cdr bag_path with
  | (out, Raise e) => (map FromParse out, Uncaught e)
  | (out, Ok None) => (map FromParse out, Returned)
  | (out, Ok (Some extracted_data)) =>
      let operator := configure extracted_data frequency (init t0) in
      let '(lines, exit) := simulate frequency operator clock in
      (map FromParse out ++ [ReadyToSend; Simulating frequency] ++ lines, exit)
  end.

End WithEnvironment.

(** The payloads [main] printed as sent under a tag. *)
Definition sent_payloads (t : string) (lines : list MainLine) : list payload :=
  flat_map (fun line => match line with
                        | Sending id d => if String.eqb id t then [d] else []
                        | _ => []
                        end) lines.

End Main.

(** ** What the extraction loop builds *)
Module Extraction.
Import Rosbags Bag.

Section WithDeserializer.
Variable deserialize_cdr : list byte -> string -> result Msg.

(** What the loop appends for a message on ["/Imu"]. *)
Definition imu_record (m : RawMessage) : result ImuRecord :=
  match deserialize_cdr m.2 (msgtype m.1.1) with
  | Raise e => Raise e
  | Ok msg => reshape_imu m.1.2 msg
  end.

(** The IMU records of a list of messages, in the order of the list. *)
Definition imu_records (ms : list RawMessage) : list ImuRecord :=
  flat_map (fun m => if on_topic "/Imu" m
                     then match imu_record m with Ok r => [r] | Raise _ => [] end
                     else []) ms.

(** The loop looks at the message. *)
Definition recognized (m : RawMessage) : bool :=
  on_topic "/Imu" m || on_topic "/odom" m.

(** The exception a message makes the loop raise, if any. *)
Definition record_failure (m : RawMessage) : option exn :=
  if on_topic "/Imu" m then
    match imu_record m with Raise e => Some e | Ok _ => None end
  else if on_topic "/odom" m then
    match odom_record deserialize_cdr m with Raise e => Some e | Ok _ => None end
  else None.

(** The exception of the first message, in the order of the list, that
    makes the loop raise. *)
Fixpoint first_failure (ms : list RawMessage) : option exn :=
  match ms with
  | [] => None
  | m :: ms' =>
      match record_failure m with
      | Some e => Some e
      | None => first_failure ms'
      end
  end.

End WithDeserializer.

(** The timestamp of a message. *)
Definition timestamp_of (m : RawMessage) : Z := m.1.2.

(** A reader that yields only the messages on recognized topics. *)
Definition only_recognized (r : Reader) : Reader :=
  Ros2bagToDora.with_messages r (List.filter recognized (messages r)).

(** The same reader behind [Reader(bag_path)]. *)
Definition skipping_others (open_reader : string -> result Reader)
  : string -> result Reader :=
  fun bag_path => match open_reader bag_path with
                  | Ok r => Ok (only_recognized r)
                  | Raise e => Raise e
                  end.

(** The exception that ends the loop, if any: the one of the first message
    that fails, else the one of the iterator. *)
Definition scan_error (deserialize_cdr : list byte -> string -> result Msg)
    (r : Reader) : option exn :=
  match first_failure deserialize_cdr (messages r) with
  | Some e => Some e
  | None => messages_failure r
  end.

(** The count [topic_message_counts.get(name, 0)] reads off the list of
    the metadata: the one of the last item of that name. *)
Definition listed_count (name : string) (items : list (string * Z)) : Z :=
  match List.find (fun item => String.eqb item.1 name) (rev items) with
  | Some item => item.2
  | None => 0
  end.

End Extraction.

(** ** More sample bags *)
Module SampleMixed.
Import Rosbags SampleBag.

(** An IMU message, a laser scan, an odometry message, an IMU message. *)
Definition mixed_reader : Reader :=
  {| metadata := sample_metadata;
     connections := [imu_connection; odom_connection; scan_connection];
     messages := [(imu_connection, 20, [x01]); (scan_connection, 21, []);
                  (odom_connection, 22, [x01]); (imu_connection, 23, [x01])];
     messages_failure := None |}.

Definition open_mixed (bag_path : string) : result Reader := Ok mixed_reader.

(** A connection on ["/odom"] that carries IMU messages. *)
Definition mislabelled_connection : Connection :=
  {| topic := "/odom"; msgtype := "sensor_msgs/msg/Imu";
     serialization_format := "cdr" |}.

(** An odometry message, then a message on ["/odom"] without the
    attributes of an odometry message, then a payload that does not
    deserialize. *)
Definition mislabelled_reader : Reader :=
  {| metadata := sample_metadata;
     connections := [odom_connection; mislabelled_connection];
     messages := [(odom_connection, 30, [x01]); (mislabelled_connection, 31, [x01]);
                  (odom_connection, 32, [])];
     messages_failure := None |}.

Definition open_mislabelled (bag_path : string) : result Reader := Ok mislabelled_reader.

End SampleMixed.

(** ** Paths *)
Module PathNotions.
Import Posix.

(** A string of [k] slashes. *)
Fixpoint slashes (k : nat) : string :=
  match k with
  | O => EmptyString
  | S k' => String "/"%char (slashes k')
  end.

(** Where the resolution of a path starts: the root for an absolute path,
    the working directory otherwise. *)
Definition start_of (fs : FileSystem) (p : string) : list string :=
  match p with
  | String c _ => if is_slash c then [] else cwd fs
  | EmptyString => cwd fs
  end.

End PathNotions.

(** ** A directory that cannot be listed *)
Module SampleLocked.
Import Posix.

(** [/home/locked] is a bag directory without the read permission. *)
Definition fs : FileSystem :=
  {| root := Dir true
               [("home",
                 Dir true [("locked", Dir false [("bar.db3", File 10);
                                                 ("metadata.yaml", File 5)])])];
     cwd := ["home"] |}.

End SampleLocked.

(** * Properties *)

(** ** Floats *)

Lemma SFcompare_Lt_flip (a b : spec_float) :
  SFcompare a b = Some Lt -> SFcompare b a = Some Gt.
Proof.
  destruct a as [ | [] | | [] m1 e1], b as [ | [] | | [] m2 e2];
    simpl; try congruence.
  all: change (PosDef.Pos.compare_cont Eq m1 m2) with (Pos.compare m1 m2);
       change (PosDef.Pos.compare_cont Eq m2 m1) with (Pos.compare m2 m1);
       rewrite (Z.compare_antisym e1 e2), (Pos.compare_antisym m1 m2);
       destruct (e1 ?= e2)%Z; simpl; try congruence;
       destruct (m1 ?= m2)%positive; simpl; congruence.
Qed.

(** On floats, [x < y] excludes [x >= y]. *)
Lemma float_lt_not_ge (x y : float) :
  PrimFloat.ltb x y = true -> float_ge x y = false.
Proof.
  unfold float_ge. rewrite ltb_spec, leb_spec. unfold SFltb, SFleb.
  destruct (SFcompare (Prim2SF x) (Prim2SF y)) as [[]|] eqn:E; try discriminate.
  intros _. now rewrite (SFcompare_Lt_flip _ _ E).
Qed.

(** ** The emitter *)
Module DoraFacts.
Import Dora Host.

Ltac py_unfold :=
  unfold send_imu, send_odom, send_output, Dora.print, update, get_self,
    bind, ret, lift, raise, get, modify in *.

Ltac case_split :=
  match goal with
  | |- context [if ?b then _ else _] => destruct b eqn:?
  | |- context [match ?x with Ok _ => _ | Raise _ => _ end] => destruct x eqn:?
  end.

Lemma call_step (o : DoraBagOperator) (ev : Event) (now : float) :
  let o' := (call o ev now).1 in
  let c := (call o ev now).2 in
  all_data o' = all_data o /\ send_frequency o' = send_frequency o
  /\ imu_index o <= imu_index o' <= imu_index o + 1
  /\ odom_index o <= odom_index o' <= odom_index o + 1
  /\ (count_tag "imu_json" (call_sent c) <= 1)%nat
  /\ (count_tag "odom_json" (call_sent c) <= 1)%nat.
Proof.
  unfold call, on_event. py_unfold. cbn -[float_truediv_int float_ge String.eqb].
  repeat case_split; cbn; repeat split; lia.
Qed.


Lemma call_tick_closed (o : DoraBagOperator) (m : event_metadata) (now iv : float) :
  float_truediv_int 1 (send_frequency o) = Ok iv ->
  float_ge (PrimFloat.sub now (last_send_time o)) iv = false ->
  call o (tick m) now = (o, quiet (Ok CONTINUE) []).
Proof.
  intros Hiv Hgate. unfold call, on_event. py_unfold.
  cbn -[float_truediv_int float_ge]. rewrite Hiv, Hgate. now destruct o.
Qed.

Lemma py_getitem_in_range {A} (l : list A) (i : Z) :
  0 <= i < len l -> exists x, py_getitem l i = Ok x.
Proof.
  intros Hi. unfold py_getitem, len in *.
  destruct (Z.ltb_spec i 0); [lia|].
  destruct (Z.ltb_spec i 0); [lia|].
  destruct (Z.leb_spec (Z.of_nat (length l)) i); [lia|]. cbn.
  destruct (l !! Z.to_nat i) eqn:E; [eauto|].
  apply lookup_ge_None in E. lia.
Qed.

Lemma call_nonneg (o : DoraBagOperator) (ev : Event) (now : float) :
  0 <= imu_index o -> 0 <= odom_index o ->
  let o' := (call o ev now).1 in
  let c := (call o ev now).2 in
  0 <= imu_index o' /\ 0 <= odom_index o'
  /\ ((o' = o /\ call_sent c = [])
      \/ (exists iv, float_truediv_int 1 (send_frequency o) = Ok iv
                     /\ float_ge (PrimFloat.sub now (last_send_time o)) iv = true
                     /\ last_send_time o' = now
                     /\ (call_sent c = [] -> exhausted o'))).
Proof.
  intros Hi Ho. unfold call, on_event, exhausted. py_unfold.
  cbn -[float_truediv_int float_ge String.eqb].
  repeat case_split; cbn -[float_truediv_int float_ge String.eqb] in *.
  all: repeat match goal with
       | H : (_ <? _) = true |- _ => apply Z.ltb_lt in H
       | H : (_ <? _) = false |- _ => apply Z.ltb_ge in H
       | H : py_getitem ?l ?i = Raise _ |- _ =>
           let X := fresh in
           destruct (py_getitem_in_range l i) as [? X]; [lia|congruence]
       end.
  all: repeat split; try lia.
  all: try (left; split; [now destruct o|reflexivity]).
  all: right; eexists; repeat split; try eassumption; try reflexivity;
       cbn; intros; try discriminate; try lia.
Qed.

Lemma interval_of_10 : float_truediv_int 1 10 = Ok one_tenth.
Proof. vm_compute. reflexivity. Qed.

Lemma scenario_run (a b c : ImuRecord) (d : OdomRecord) (m : event_metadata)
    (t0 t1 t2 t3 t4 : float) :
  float_ge (PrimFloat.sub t1 t0) one_tenth = true ->
  float_ge (PrimFloat.sub t2 t1) one_tenth = true ->
  float_ge (PrimFloat.sub t3 t2) one_tenth = true ->
  float_ge (PrimFloat.sub t4 t3) one_tenth = true ->
  run (scenario_operator a b c d t0) (scenario_ticks m t1 t2 t3 t4)
  = ({| all_data := {| Imu := [a; b; c]; odom := [d] |};
        imu_index := 3; odom_index := 1;
        last_send_time := t4; send_frequency := 10 |},
     [ {| call_sent := [imu_output a m; odom_output d m];
          call_printed := []; call_result := Ok CONTINUE |};
       {| call_sent := [imu_output b m];
          call_printed := []; call_result := Ok CONTINUE |};
       {| call_sent := [imu_output c m];
          call_printed := ["Finished sending all IMU and Odom data."];
          call_result := Ok STOP |};
       {| call_sent := [];
          call_printed := ["Finished sending all IMU and Odom data."];
          call_result := Ok STOP |} ]).
Proof.
  intros H1 H2 H3 H4.
  unfold scenario_operator, scenario_ticks, run, call, on_event. py_unfold.
  cbv -[float_truediv_int float_ge PrimFloat.sub one_tenth].
  rewrite interval_of_10, H1. cbv -[float_truediv_int float_ge PrimFloat.sub one_tenth].
  rewrite interval_of_10, H2. cbv -[float_truediv_int float_ge PrimFloat.sub one_tenth].
  rewrite interval_of_10, H3. cbv -[float_truediv_int float_ge PrimFloat.sub one_tenth].
  rewrite interval_of_10, H4. reflexivity.
Qed.

Lemma call_exhausted (o : DoraBagOperator) (ev : Event) (now : float) :
  exhausted o ->
  call_sent (call o ev now).2 = [] /\ exhausted (call o ev now).1.
Proof.
  intros [Hi Ho]. unfold call, on_event, exhausted. py_unfold.
  cbn -[float_truediv_int float_ge String.eqb].
  repeat case_split; cbn -[float_truediv_int float_ge String.eqb] in *.
  all: repeat match goal with
       | H : (_ <? _) = true |- _ => apply Z.ltb_lt in H
       end; try lia.
  all: repeat split; try reflexivity; lia.
Qed.

Lemma run_cons (o : DoraBagOperator) (ev : Event) (now : float)
    (evs : list (Event * float)) :
  run o ((ev, now) :: evs)
  = ((run (call o ev now).1 evs).1, (call o ev now).2 :: (run (call o ev now).1 evs).2).
Proof.
  cbn [run]. destruct (call o ev now) as [o1 c]; cbn.
  now destruct (run o1 evs).
Qed.

Lemma run_app (o : DoraBagOperator) (evs1 evs2 : list (Event * float)) :
  run o (evs1 ++ evs2)
  = ((run (run o evs1).1 evs2).1, (run o evs1).2 ++ (run (run o evs1).1 evs2).2).
Proof.
  revert o. induction evs1 as [|[ev now] evs1 IH]; intros o.
  - cbn. now destruct (run o evs2).
  - rewrite <- app_comm_cons, !run_cons, IH. reflexivity.
Qed.

Lemma run_indices (o : DoraBagOperator) (evs : list (Event * float)) :
  all_data (run o evs).1 = all_data o
  /\ send_frequency (run o evs).1 = send_frequency o
  /\ imu_index o <= imu_index (run o evs).1 <= imu_index o + len evs
  /\ odom_index o <= odom_index (run o evs).1 <= odom_index o + len evs.
Proof.
  revert o. induction evs as [|[ev now] evs IH]; intros o.
  - cbn. unfold len; cbn. repeat split; lia.
  - rewrite run_cons. cbn [fst].
    destruct (call_step o ev now) as (Hd & Hf & Hi & Ho & _).
    destruct (IH (call o ev now).1) as (Hd' & Hf' & Hi' & Ho').
    unfold len in *. cbn [length]. repeat split; try congruence; lia.
Qed.

Lemma run_nonneg (o : DoraBagOperator) (evs : list (Event * float)) :
  0 <= imu_index o -> 0 <= odom_index o ->
  0 <= imu_index (run o evs).1 /\ 0 <= odom_index (run o evs).1.
Proof.
  intros. destruct (run_indices o evs) as (_ & _ & ? & ?). lia.
Qed.

Lemma run_exhausted (o : DoraBagOperator) (evs : list (Event * float)) :
  exhausted o ->
  outputs (run o evs).2 = [] /\ exhausted (run o evs).1.
Proof.
  revert o. induction evs as [|[ev now] evs IH]; intros o Hex.
  - now cbn.
  - rewrite run_cons. cbn [fst snd]. unfold outputs in *. cbn [map concat].
    destruct (call_exhausted o ev now Hex) as [-> Hex'].
    destruct (IH _ Hex') as [-> ?]. now split.
Qed.

(** While nothing is sent and something is left to send, the time of the
    last emission stays. *)
Lemma run_silent (o : DoraBagOperator) (evs : list (Event * float)) :
  0 <= imu_index o -> 0 <= odom_index o ->
  outputs (run o evs).2 = [] ->
  ~ exhausted (run o evs).1 ->
  last_send_time (run o evs).1 = last_send_time o.
Proof.
  revert o. induction evs as [|[ev now] evs IH]; intros o Hi Ho Hout Hleft.
  - reflexivity.
  - rewrite run_cons in *. cbn [fst snd] in *.
    unfold outputs in Hout. cbn [map concat] in Hout.
    apply app_eq_nil in Hout as [Hc Hrest].
    destruct (call_nonneg o ev now Hi Ho) as (Hi' & Ho' & Hcase).
    destruct Hcase as [[Heq _] | (iv & _ & _ & _ & Hex)].
    + rewrite Heq in *. now apply IH.
    + exfalso. apply Hleft. now apply run_exhausted, Hex.
Qed.

(** An emission is made by an open gate, and sets the time of the last
    emission. *)
Lemma call_emits (o : DoraBagOperator) (ev : Event) (now : float) :
  0 <= imu_index o -> 0 <= odom_index o ->
  call_sent (call o ev now).2 <> [] ->
  last_send_time (call o ev now).1 = now
  /\ exists iv, float_truediv_int 1 (send_frequency o) = Ok iv
                /\ float_ge (PrimFloat.sub now (last_send_time o)) iv = true.
Proof.
  intros Hi Ho Hsent.
  destruct (call_nonneg o ev now Hi Ho) as (_ & _ & Hcase).
  destruct Hcase as [[_ Hnil] | (iv & Hiv & Hgate & Hlast & _)]; [congruence|].
  eauto.
Qed.

Lemma sends_true (c : Call) : sends c = true -> call_sent c <> [].
Proof. unfold sends. now destruct (call_sent c). Qed.

Lemma silent_outputs (cs : list Call) : existsb sends cs = false -> outputs cs = [].
Proof.
  unfold outputs. induction cs as [|c cs IH]; cbn; [reflexivity|].
  intros H. apply orb_false_iff in H as [Hc Hcs].
  unfold sends in Hc. destruct (call_sent c); [|discriminate]. now apply IH.
Qed.

(** C1, as amended: with frequency 10, three IMU records and one odometry
    record, four ticks that each come at least 0.1 s after the previous
    emission send the three IMU records and the odometry record, each tag
    in index order; [on_event] returns [STOP] for the first time on the
    third tick, where both indices reach the end, and again on the fourth,
    which sends nothing. *)
Theorem emitter_scenario_stops_on_third_tick
    (a b c : ImuRecord) (d : OdomRecord) (m : event_metadata)
    (t0 t1 t2 t3 t4 : float) :
  float_ge (PrimFloat.sub t1 t0) one_tenth = true ->
  float_ge (PrimFloat.sub t2 t1) one_tenth = true ->
  float_ge (PrimFloat.sub t3 t2) one_tenth = true ->
  float_ge (PrimFloat.sub t4 t3) one_tenth = true ->
  let o' := (run (scenario_operator a b c d t0) (scenario_ticks m t1 t2 t3 t4)).1 in
  let cs := (run (scenario_operator a b c d t0) (scenario_ticks m t1 t2 t3 t4)).2 in
  outputs cs = [imu_output a m; odom_output d m; imu_output b m; imu_output c m]
  /\ List.filter (has_tag "imu_json") (outputs cs)
     = [imu_output a m; imu_output b m; imu_output c m]
  /\ List.filter (has_tag "odom_json") (outputs cs) = [odom_output d m]
  /\ statuses cs = [Ok CONTINUE; Ok CONTINUE; Ok STOP; Ok STOP]
  /\ first_stop (statuses cs) = Some 3%nat
  /\ imu_index o' = 3 /\ odom_index o' = 1.
Proof.
  intros H1 H2 H3 H4 o' cs. subst o' cs.
  rewrite (scenario_run a b c d m t0 t1 t2 t3 t4 H1 H2 H3 H4).
  repeat split.
Qed.

Lemma emitter_scenario_witness :
  let cs := (run (scenario_operator (Sample.imu_at 1) (Sample.imu_at 2)
                    (Sample.imu_at 3) (Sample.odom_at 1) 0)
               (scenario_ticks [] 1 2 3 4)).2 in
  statuses cs = [Ok CONTINUE; Ok CONTINUE; Ok STOP; Ok STOP]
  /\ first_stop (statuses cs) = Some 3%nat.
Proof.
  destruct (emitter_scenario_stops_on_third_tick
              (Sample.imu_at 1) (Sample.imu_at 2) (Sample.imu_at 3)
              (Sample.odom_at 1) [] 0 1 2 3 4
              eq_refl eq_refl eq_refl eq_refl)
    as (_ & _ & _ & Hst & Hfirst & _).
  exact (conj Hst Hfirst).
Defined.

(** C1, as stated, fails: in the scenario with ticks at 1, 2, 3 and 4 s the
    first [STOP] is returned on the third tick, not on the fourth. *)
Lemma emitter_scenario_not_fourth_tick : ~ scenario_stops_on_fourth_tick.
Proof.
  intros H.
  specialize (H (Sample.imu_at 1) (Sample.imu_at 2) (Sample.imu_at 3)
                (Sample.odom_at 1) [] 0%float 1%float 2%float 3%float 4%float
                eq_refl eq_refl eq_refl eq_refl).
  destruct H as (_ & _ & H). vm_compute in H. discriminate H.
Qed.



(** C6: over any call of [on_event], [imu_index] and [odom_index] stay or
    grow by one, and the call sends at most one ["imu_json"] and at most
    one ["odom_json"]; over any sequence of calls they never decrease,
    however the sequence is continued. *)
Theorem indices_only_advance
    (o : DoraBagOperator) (ev : Event) (now : float)
    (evs1 evs2 : list (Event * float)) :
  (imu_index o <= imu_index (call o ev now).1 <= imu_index o + 1
   /\ odom_index o <= odom_index (call o ev now).1 <= odom_index o + 1
   /\ (count_tag "imu_json" (call_sent (call o ev now).2) <= 1)%nat
   /\ (count_tag "odom_json" (call_sent (call o ev now).2) <= 1)%nat)
  /\ (imu_index o <= imu_index (run o evs1).1
      /\ imu_index (run o evs1).1 <= imu_index (run o (evs1 ++ evs2)).1
      /\ odom_index o <= odom_index (run o evs1).1
      /\ odom_index (run o evs1).1 <= odom_index (run o (evs1 ++ evs2)).1).
Proof.
  split.
  - destruct (call_step o ev now) as (_ & _ & Hi & Ho & Hci & Hco). auto.
  - rewrite run_app. cbn [fst].
    destruct (run_indices o evs1) as (_ & _ & ? & ?).
    destruct (run_indices (run o evs1).1 evs2) as (_ & _ & ? & ?). lia.
Qed.

(** C7: a tick that comes less than [1/send_frequency] after
    [last_send_time] sends nothing and leaves the operator as it is; and
    between two consecutive emissions of a run, at times [t1] and [t2],
    [t2 - t1 >= 1/send_frequency] holds (the operator's indices being
    non-negative, as [__init__] and [on_event] leave them). *)
Theorem interval_bounds_emissions :
  (forall (o : DoraBagOperator) (m : event_metadata) (now iv : float),
      float_truediv_int 1 (send_frequency o) = Ok iv ->
      PrimFloat.ltb (PrimFloat.sub now (last_send_time o)) iv = true ->
      call o (tick m) now = (o, quiet (Ok CONTINUE) []))
  /\ (forall (o : DoraBagOperator) (evs1 : list (Event * float))
             (ev1 : Event) (t1 : float) (evs2 : list (Event * float))
             (ev2 : Event) (t2 : float),
        0 <= imu_index o -> 0 <= odom_index o ->
        let o1 := (run o evs1).1 in
        let o2 := (call o1 ev1 t1).1 in
        let o3 := (run o2 evs2).1 in
        sends (call o1 ev1 t1).2 = true ->
        existsb sends (run o2 evs2).2 = false ->
        sends (call o3 ev2 t2).2 = true ->
        exists iv, float_truediv_int 1 (send_frequency o) = Ok iv
                   /\ float_ge (PrimFloat.sub t2 t1) iv = true).
Proof.
  split.
  - intros o m now iv Hiv Hlt. apply (call_tick_closed o m now iv Hiv).
    now apply float_lt_not_ge.
  - intros o evs1 ev1 t1 evs2 ev2 t2 Hi Ho o1 o2 o3 Hs1 Hq Hs2.
    apply sends_true in Hs1, Hs2. apply silent_outputs in Hq.
    assert (Hf : send_frequency o3 = send_frequency o).
    { subst o3 o2 o1.
      destruct (run_indices (call (run o evs1).1 ev1 t1).1 evs2) as (_ & -> & _).
      destruct (call_step (run o evs1).1 ev1 t1) as (_ & -> & _).
      now destruct (run_indices o evs1) as (_ & -> & _). }
    destruct (run_nonneg o evs1 Hi Ho) as [Hi1 Ho1].
    destruct (call_emits o1 ev1 t1 Hi1 Ho1 Hs1) as [Hlast _].
    destruct (call_nonneg o1 ev1 t1 Hi1 Ho1) as (Hi2 & Ho2 & _).
    destruct (run_nonneg o2 evs2 Hi2 Ho2) as [Hi3 Ho3].
    destruct (call_emits o3 ev2 t2 Hi3 Ho3 Hs2) as [_ (iv & Hiv & Hgate)].
    assert (Hleft : ~ exhausted o3).
    { intros Hex. now destruct (call_exhausted o3 ev2 t2 Hex) as [? _]. }
    pose proof (run_silent o2 evs2 Hi2 Ho2 Hq Hleft) as Hkeep.
    fold o3 in Hkeep. fold o2 in Hlast.
    rewrite Hkeep, Hlast in Hgate. rewrite Hf in Hiv.
    exists iv. now split.
Qed.

Lemma interval_bounds_emissions_witness :
  call Sample.one_left (tick []) 0.0625 = (Sample.one_left, quiet (Ok CONTINUE) [])
  /\ exists iv, float_truediv_int 1 (send_frequency Sample.two_left) = Ok iv
                /\ float_ge (PrimFloat.sub 2 1) iv = true.
Proof.
  destruct interval_bounds_emissions as [Hclosed Hspaced]. split.
  - apply (Hclosed Sample.one_left [] 0.0625%float one_tenth); reflexivity.
  - apply (Hspaced Sample.two_left [] (tick []) 1%float
             [(tick [], 1.0625%float)] (tick []) 2%float);
      first [reflexivity | vm_compute; lia | vm_compute; discriminate].
Defined.

End DoraFacts.

(** ** Locator, summary and extraction *)
Module BagFacts.
Import Posix Rosbags Bag.

Ltac py_unfold :=
  unfold Bag.print, bind, ret, lift, raise, get, modify, try_except in *.

Lemma isfile_exists (fs : FileSystem) (p : string) :
  isfile fs p = true -> path_exists fs p = true.
Proof. unfold isfile, path_exists. now destruct (resolve fs p). Qed.

Lemma isdir_exists (fs : FileSystem) (p : string) :
  isdir fs p = true -> path_exists fs p = true.
Proof. unfold isdir, path_exists. now destruct (resolve fs p). Qed.

Lemma isfile_not_isdir (fs : FileSystem) (p : string) :
  isfile fs p = true -> isdir fs p = false.
Proof. unfold isfile, isdir. now destruct (resolve fs p) as [[|? ?]|]. Qed.

Lemma isdir_empty_path (fs : FileSystem) : isdir fs "" = false.
Proof. reflexivity. Qed.

Lemma dirname_bare (p : string) : contains_slash p = false -> dirname p = "".
Proof.
  intros H. unfold dirname.
  assert (Hs : split_last_slash p = None).
  { induction p as [|c r IH]; [reflexivity|].
    cbn in *. apply orb_false_iff in H as [Hc Hr].
    now rewrite (IH Hr), Hc. }
  now rewrite Hs.
Qed.

(** The locator in closed form. *)
Lemma locate_eq (fs : FileSystem) {S} (p : string) (out : list LogLine) (s : S) :
  locate fs p (out, s)
  = if negb (path_exists fs p) then
      ((out ++ [ErrorPathDoesNotExist p], s), Ok None)
    else if isfile fs p && endswith p ".db3" then
      if isdir fs (dirname p) then
        ((out ++ [WarningDb3Provided (dirname p)], s),
         Ok (Some (dirname p, BaseName (basename p))))
      else
        ((out ++ [WarningDb3Provided (dirname p); ErrorNotBagDirectory (dirname p)], s),
         Ok None)
    else if isdir fs p then
      match listdir fs p with
      | Raise e => ((out, s), Raise e)
      | Ok names =>
          match List.filter (fun f => endswith f ".db3") names with
          | [] => ((out ++ [ErrorNoDb3Found p], s), Ok None)
          | db3_files => ((out, s), Ok (Some (p, Db3Files db3_files)))
          end
      end
    else ((out ++ [ErrorNotBagOrDb3 p], s), Ok None).
Proof.
  unfold locate. py_unfold.
  destruct (path_exists fs p); cbn [negb]; [|reflexivity].
  destruct (isfile fs p && endswith p ".db3").
  - destruct (isdir fs (dirname p)); cbn [negb]; [reflexivity|].
    now rewrite <- app_assoc.
  - destruct (isdir fs p) eqn:Hdir; [|reflexivity].
    destruct (listdir fs p) as [names|e]; [|reflexivity].
    destruct (List.filter _ names); [reflexivity|].
    now rewrite Hdir.
Qed.

(** C4, as amended: a path that does not exist fails with the not-found
    line; an existing file whose name ends in [.db3] and whose
    [os.path.dirname] is a directory resolves to that directory, after a
    warning; a directory that can be listed and has no entry whose name ends
    in [.db3] fails with the no-data-file line; a directory that can be
    listed and has such entries is itself the bag directory; an existing
    path that is neither fails with the invalid-path line. *)
Theorem locator_cases (fs : FileSystem) (p : string) :
  (path_exists fs p = false ->
   run_locate fs p = ([ErrorPathDoesNotExist p], Ok None))
  /\ (isfile fs p && endswith p ".db3" = true -> isdir fs (dirname p) = true ->
      run_locate fs p
      = ([WarningDb3Provided (dirname p)],
         Ok (Some (dirname p, BaseName (basename p)))))
  /\ (isdir fs p = true -> is_ok (listdir fs p) = true -> db3_entries fs p = [] ->
      run_locate fs p = ([ErrorNoDb3Found p], Ok None))
  /\ (isdir fs p = true -> is_ok (listdir fs p) = true -> db3_entries fs p <> [] ->
      run_locate fs p = ([], Ok (Some (p, Db3Files (db3_entries fs p)))))
  /\ (path_exists fs p = true -> isfile fs p && endswith p ".db3" = false ->
      isdir fs p = false ->
      run_locate fs p = ([ErrorNotBagOrDb3 p], Ok None)).
Proof.
  unfold run_locate. rewrite locate_eq.
  refine (conj _ (conj _ (conj _ (conj _ _)))).
  - now intros ->.
  - intros Hfile Hparent. rewrite Hfile, Hparent.
    apply andb_true_iff in Hfile as [Hfile _].
    now rewrite (isfile_exists _ _ Hfile).
  - intros Hdir Hlist Hnone. rewrite (isdir_exists _ _ Hdir), Hdir.
    unfold db3_entries in Hnone.
    destruct (listdir fs p) as [names|e]; [|discriminate]. rewrite Hnone.
    destruct (isfile fs p) eqn:Hfile; [|reflexivity].
    apply isfile_not_isdir in Hfile. congruence.
  - intros Hdir Hlist Hsome. rewrite (isdir_exists _ _ Hdir), Hdir.
    unfold db3_entries in *.
    destruct (listdir fs p) as [names|e]; [|discriminate].
    destruct (isfile fs p) eqn:Hfile.
    { apply isfile_not_isdir in Hfile. congruence. }
    cbn. now destruct (List.filter _ names).
  - now intros -> -> ->.
Qed.

Lemma locator_cases_witness :
  run_locate SampleBag.fs "nope" = ([ErrorPathDoesNotExist "nope"], Ok None)
  /\ run_locate SampleBag.fs "foo/bar.db3"
     = ([WarningDb3Provided "foo"], Ok (Some ("foo", BaseName "bar.db3")))
  /\ run_locate SampleBag.fs "empty" = ([ErrorNoDb3Found "empty"], Ok None)
  /\ run_locate SampleBag.fs "foo" = ([], Ok (Some ("foo", Db3Files ["bar.db3"])))
  /\ run_locate SampleBag.fs "notes.txt" = ([ErrorNotBagOrDb3 "notes.txt"], Ok None).
Proof.
  refine (conj _ (conj _ (conj _ (conj _ _)))).
  - apply (locator_cases SampleBag.fs "nope"). reflexivity.
  - apply (locator_cases SampleBag.fs "foo/bar.db3"); reflexivity.
  - apply (locator_cases SampleBag.fs "empty"); reflexivity.
  - apply (locator_cases SampleBag.fs "foo"); [reflexivity|reflexivity|discriminate].
  - apply (locator_cases SampleBag.fs "notes.txt"); reflexivity.
Defined.

(** C4, as stated, fails, at two paths of the sample file system.  [foo]
    is a directory with a [.db3] entry, one of "every other case": it is
    not rejected as an invalid path but is the bag directory.  [bar.db3]
    is an existing data file in the working directory: the locator prints
    the warning, then rejects the empty directory name and resolves
    nothing. *)
Lemma locator_not_as_specified :
  ~ locator_as_specified
  /\ run_locate SampleBag.fs "foo" = ([], Ok (Some ("foo", Db3Files ["bar.db3"])))
  /\ run_locate SampleBag.fs "bar.db3"
     = ([WarningDb3Provided ""; ErrorNotBagDirectory ""], Ok None).
Proof.
  refine (conj _ (conj eq_refl eq_refl)).
  intros H. destruct (H SampleBag.fs "foo") as (_ & _ & _ & Hother).
  assert (Hfoo : run_locate SampleBag.fs "foo" = ([ErrorNotBagOrDb3 "foo"], Ok None)).
  { apply Hother; [reflexivity|reflexivity|]. intros [_ Hnone]. discriminate Hnone. }
  vm_compute in Hfoo. discriminate Hfoo.
Qed.

Section Parse.
Variable fs : FileSystem.
Variable open_reader : string -> result Reader.
Variable fromtimestamp : float -> result string.
Variable deserialize_cdr : list byte -> string -> result Msg.

(** [parse_ros2_bag] around the locator and the reader block. *)
Lemma run_parse_eq (p : string) :
  Ros2bagToDora.run_parse fs open_reader fromtimestamp deserialize_cdr p
  = match locate fs p ([], Ros2bagToDora.empty_data) with
    | ((out, s), Ok (Some (bag_path, bag_file_name))) =>
        match Ros2bagToDora.reader_block fs open_reader fromtimestamp
                deserialize_cdr bag_path bag_file_name
                (out ++ [ParsingFrom bag_path], s) with
        | ((out', _), Ok r) => (out', Ok r)
        | ((out', _), Raise e) => (out' ++ [ErrorParsing e], Ok None)
        end
    | ((out, _), Ok None) => (out, Ok None)
    | ((out, _), Raise e) => (out, Raise e)
    end.
Proof.
  unfold Ros2bagToDora.run_parse, Ros2bagToDora.parse_ros2_bag.
  unfold bind at 1.
  destruct (locate fs p ([], Ros2bagToDora.empty_data)) as [[out s] [[[bp bfn]|]|e]];
    try reflexivity.
  generalize (Ros2bagToDora.reader_block fs open_reader fromtimestamp
                deserialize_cdr bp bfn); intros block.
  py_unfold. cbn.
  now destruct (block (out ++ [ParsingFrom bp], s)) as [[out' s'] [r|e]].
Qed.

(** In terms of [run_locate]. *)
Lemma locate_any_state {S} (p : string) (s : S) :
  locate fs p ([], s) = (((run_locate fs p).1, s), (run_locate fs p).2).
Proof.
  unfold run_locate. rewrite !locate_eq.
  repeat match goal with
         | |- context [if ?b then _ else _] => destruct b
         | |- context [match ?x with Ok _ => _ | Raise _ => _ end] => destruct x
         | |- context [match ?l with [] => _ | _ :: _ => _ end] => destruct l
         end; reflexivity.
Qed.

End Parse.

Lemma for_each_print {S A} (f : A -> LogLine) (xs : list A)
    (out : list LogLine) (s : S) :
  for_each xs (fun x => Bag.print (f x)) (out, s) = ((out ++ map f xs, s), Ok tt).
Proof.
  revert out. induction xs as [|x xs IH]; intros out; cbn [for_each map].
  - unfold ret. now rewrite app_nil_r.
  - unfold bind, Bag.print, modify. rewrite IH. now rewrite <- app_assoc.
Qed.

Ltac case_result :=
  match goal with
  | |- context [match ?x with Ok _ => _ | Raise _ => _ end] => destruct x eqn:?
  end.

(** The summary in closed form: every conversion comes before the first
    line. *)
Lemma summary_eq (fs : FileSystem) (fromtimestamp : float -> result string) {S}
    (bag_path : string) (bag_file_name : BagFileName) (reader : Reader)
    (out : list LogLine) (s : S) :
  let md := metadata reader in
  let start_ns := starting_time_nanoseconds_since_epoch md in
  let duration_ns := duration_nanoseconds md in
  summary fs fromtimestamp bag_path bag_file_name reader (out, s)
  = match int_truediv_mib (walk_total_size fs bag_path) with
    | Raise e => ((out, s), Raise e)
    | Ok bag_size_mib =>
    match int_truediv_1e9 duration_ns with
    | Raise e => ((out, s), Raise e)
    | Ok duration_s =>
    match int_truediv_1e9 start_ns with
    | Raise e => ((out, s), Raise e)
    | Ok start_s =>
    match fromtimestamp start_s with
    | Raise e => ((out, s), Raise e)
    | Ok start_datetime =>
    match int_truediv_1e9 (start_ns + duration_ns) with
    | Raise e => ((out, s), Raise e)
    | Ok end_s =>
    match fromtimestamp end_s with
    | Raise e => ((out, s), Raise e)
    | Ok end_datetime =>
        ((out ++ [LineFiles bag_file_name; LineBagSize bag_size_mib;
                  LineStorageId (storage_identifier md); LineDuration duration_s;
                  LineStart start_datetime start_s; LineEnd end_datetime end_s;
                  LineMessages (message_count md); LineTopicInformation]
              ++ map (topic_line md) (connections reader), s), Ok tt)
    end end end end end end.
Proof.
  intros md start_ns duration_ns. unfold summary. fold md.
  unfold bind at 1, lift at 1. case_result; [|reflexivity].
  unfold bind at 1, lift at 1. fold duration_ns. case_result; [|reflexivity].
  unfold bind at 1, lift at 1. fold start_ns. case_result; [|reflexivity].
  unfold bind at 1, lift at 1. case_result; [|reflexivity].
  unfold bind at 1, lift at 1. case_result; [|reflexivity].
  unfold bind at 1, lift at 1. case_result; [|reflexivity].
  unfold bind, Bag.print, modify.
  change (fun connection : Connection => _)
    with (fun connection : Connection => @Bag.print S (topic_line md connection)).
  rewrite for_each_print. repeat rewrite <- app_assoc. reflexivity.
Qed.

Section Extraction.
Variable deserialize_cdr : list byte -> string -> result Msg.

(** The loop body prints nothing. *)
Lemma extract_message_out {S} (m : RawMessage) (st : S * ExtractedData) :
  (extract_message deserialize_cdr m st).1.1 = st.1.
Proof.
  destruct m as [[connection timestamp] rawdata], st as [out d].
  unfold extract_message. py_unfold.
  repeat match goal with
         | |- context [if ?b then _ else _] => destruct b
         | |- context [match ?x with Ok _ => _ | Raise _ => _ end] => destruct x
         end; reflexivity.
Qed.

Lemma for_each_extract_out {S} (ms : list RawMessage) (st : S * ExtractedData) :
  (for_each ms (extract_message deserialize_cdr) st).1.1 = st.1.
Proof.
  revert st. induction ms as [|m ms IH]; intros st; [reflexivity|].
  cbn [for_each]. unfold bind.
  pose proof (extract_message_out m st) as Hm.
  destruct (extract_message deserialize_cdr m st) as [st' [[]|e]]; cbn in *.
  - now rewrite IH.
  - exact Hm.
Qed.

(** A message that does not deserialize ends the loop. *)
Lemma extract_message_undecodable {S} (m : RawMessage) (st : S * ExtractedData) :
  undecodable deserialize_cdr m = true ->
  exists e, extract_message deserialize_cdr m st = (st, Raise e).
Proof.
  destruct m as [[connection timestamp] rawdata], st as [out d].
  unfold undecodable, on_topic, extract_message. cbn.
  intros H. apply andb_true_iff in H as [Htopic Hbad].
  destruct (deserialize_cdr rawdata (msgtype connection)) as [msg|e];
    [discriminate|].
  exists e. py_unfold.
  destruct (String.eqb (topic connection) "/Imu"); [reflexivity|].
  cbn in Htopic. now rewrite Htopic.
Qed.

Lemma for_each_undecodable {S} (ms : list RawMessage) (st : S * ExtractedData) :
  existsb (undecodable deserialize_cdr) ms = true ->
  exists st' e, for_each ms (extract_message deserialize_cdr) st = (st', Raise e).
Proof.
  revert st. induction ms as [|m ms IH]; intros st H; [discriminate|].
  cbn in H. cbn [for_each]. unfold bind.
  destruct (undecodable deserialize_cdr m) eqn:Hm.
  - destruct (extract_message_undecodable m st Hm) as [e ->]. eauto.
  - destruct (extract_message deserialize_cdr m st) as [st1 [[]|e]]; eauto.
Qed.

(** Without IMU messages, and with odometry messages that all
    deserialize, the loop appends the odometry records in order. *)
Lemma for_each_odom_only {S} (ms : list RawMessage) (out : S) (d : ExtractedData) :
  forallb (fun m => negb (on_topic "/Imu" m)) ms = true ->
  odom_decodable deserialize_cdr ms = true ->
  for_each ms (extract_message deserialize_cdr) (out, d)
  = ((out, {| Imu := Imu d; odom := odom d ++ odom_records deserialize_cdr ms |}),
     Ok tt).
Proof.
  revert d. induction ms as [|m ms IH]; intros d Himu Hodom.
  - cbn. unfold ret. rewrite app_nil_r. now destruct d.
  - cbn in Himu, Hodom.
    apply andb_true_iff in Himu as [Hm Himu].
    apply andb_true_iff in Hodom as [Ho Hodom].
    cbn [for_each odom_records flat_map]. unfold bind.
    destruct m as [[connection timestamp] rawdata].
    unfold on_topic, odom_record in *. cbn in *.
    unfold extract_message.
    destruct (String.eqb (topic connection) "/Imu"); [discriminate|].
    destruct (String.eqb (topic connection) "/odom").
    + py_unfold.
      destruct (deserialize_cdr rawdata (msgtype connection)) as [msg|e];
        [|discriminate].
      destruct (reshape_odom timestamp msg) as [r|e]; [|discriminate].
      rewrite IH by assumption. cbn. now rewrite <- app_assoc.
    + unfold ret. now rewrite IH by assumption.
Qed.

Lemma odom_records_decodable (ms : list RawMessage) :
  odom_decodable deserialize_cdr ms = true ->
  map Ok (odom_records deserialize_cdr ms)
  = map (odom_record deserialize_cdr) (List.filter (on_topic "/odom") ms).
Proof.
  induction ms as [|m ms IH]; intros H; [reflexivity|].
  cbn in H. apply andb_true_iff in H as [Hm H].
  cbn [odom_records flat_map List.filter].
  destruct (on_topic "/odom" m).
  - destruct (odom_record deserialize_cdr m) as [r|e] eqn:E; [|discriminate].
    cbn. rewrite E. f_equal. now apply IH.
  - now apply IH.
Qed.

End Extraction.

Lemma no_parse_error_in_topic_lines (md : Metadata) (cs : list Connection) :
  List.filter is_parse_error (map (topic_line md) cs) = [].
Proof. induction cs as [|c cs IH]; [reflexivity|exact IH]. Qed.

Lemma no_end_line_in_topic_lines (md : Metadata) (cs : list Connection) :
  List.filter is_end_line (map (topic_line md) cs) = [].
Proof. induction cs as [|c cs IH]; [reflexivity|exact IH]. Qed.

(** The summary either raises before its first line or prints all of its
    lines, whatever the state; none of them is the parse-error line. *)
Lemma summary_lines (fs : FileSystem) (fromtimestamp : float -> result string) {S}
    (bag_path : string) (bag_file_name : BagFileName) (reader : Reader)
    (out : list LogLine) (s : S) :
  (exists e, summary fs fromtimestamp bag_path bag_file_name reader (out, s)
             = ((out, s), Raise e))
  \/ (exists added,
        summary fs fromtimestamp bag_path bag_file_name reader (out, s)
        = ((out ++ added, s), Ok tt)
        /\ List.filter is_parse_error added = []).
Proof.
  rewrite summary_eq. cbv zeta.
  repeat (case_result; [|left; eauto]).
  right. eexists. split; [reflexivity|].
  rewrite List.filter_app, no_parse_error_in_topic_lines. reflexivity.
Qed.

Lemma summary_ok_any_state (fs : FileSystem) (fromtimestamp : float -> result string)
    {S} (bag_path : string) (bag_file_name : BagFileName) (reader : Reader)
    (out : list LogLine) (s : S) :
  (summary fs fromtimestamp bag_path bag_file_name reader ([], tt)).2 = Ok tt ->
  exists added,
    summary fs fromtimestamp bag_path bag_file_name reader (out, s)
    = ((out ++ added, s), Ok tt).
Proof.
  rewrite !summary_eq. cbv zeta.
  repeat (case_result; [|discriminate]).
  intros _. eexists. reflexivity.
Qed.

Section ReaderBlock.
Variable fs : FileSystem.
Variable open_reader : string -> result Reader.
Variable fromtimestamp : float -> result string.
Variable deserialize_cdr : list byte -> string -> result Msg.

(** The reader block only appends lines, none of them the parse-error
    line. *)
Lemma reader_block_lines (bag_path : string) (bag_file_name : BagFileName)
    (out : list LogLine) (s : ExtractedData) :
  exists added,
    (Ros2bagToDora.reader_block fs open_reader fromtimestamp deserialize_cdr
       bag_path bag_file_name (out, s)).1.1 = out ++ added
    /\ List.filter is_parse_error added = [].
Proof.
  unfold Ros2bagToDora.reader_block.
  unfold bind at 1, lift at 1.
  destruct (open_reader bag_path) as [reader|e];
    [|exists []; now rewrite app_nil_r].
  unfold bind at 1.
  destruct (summary_lines fs fromtimestamp bag_path bag_file_name reader out s)
    as [[e ->] | (added & -> & Hadded)];
    [exists []; now rewrite app_nil_r|].
  unfold bind at 1, modify at 1. unfold bind at 1. unfold extract.
  unfold bind at 1.
  pose proof (for_each_extract_out deserialize_cdr (messages reader)
                (out ++ added, Ros2bagToDora.empty_data)) as Hout.
  destruct (for_each (messages reader) (extract_message deserialize_cdr)
              (out ++ added, Ros2bagToDora.empty_data)) as [[out' d] [[]|e]];
    cbn in Hout; subst out'; [|exists added; now split].
  destruct (messages_failure reader) as [e|].
  - exists added. now split.
  - py_unfold. cbn. eexists. rewrite <- !app_assoc. split; [reflexivity|].
    rewrite List.filter_app, Hadded. reflexivity.
Qed.

Lemma run_locate_lines (p : string) :
  List.filter is_parse_error (run_locate fs p).1 = [].
Proof.
  unfold run_locate. rewrite locate_eq.
  repeat match goal with
         | |- context [if ?b then _ else _] => destruct b
         | |- context [match ?x with Ok _ => _ | Raise _ => _ end] => destruct x
         | |- context [match ?l with [] => _ | _ :: _ => _ end] => destruct l
         end; reflexivity.
Qed.

(** C5: when the path resolves to a bag directory and the reader block
    raises, whatever the exception and wherever in the block,
    [parse_ros2_bag] returns [None] to its caller; the exception is
    reported in one line, the last one printed, and no other line of
    the output is a parse-error line. *)
Theorem reader_exceptions_are_caught
    (p bag_path : string) (bag_file_name : BagFileName)
    (out1 : list LogLine) (st2 : list LogLine * ExtractedData) (e : exn) :
  run_locate fs p = (out1, Ok (Some (bag_path, bag_file_name))) ->
  Ros2bagToDora.reader_block fs open_reader fromtimestamp deserialize_cdr
    bag_path bag_file_name (out1 ++ [ParsingFrom bag_path], Ros2bagToDora.empty_data)
  = (st2, Raise e) ->
  Ros2bagToDora.run_parse fs open_reader fromtimestamp deserialize_cdr p
  = (st2.1 ++ [ErrorParsing e], Ok None)
  /\ List.filter is_parse_error (st2.1 ++ [ErrorParsing e]) = [ErrorParsing e].
Proof.
  intros Hloc Hblock.
  pose proof (run_locate_lines p) as Hclean1. rewrite Hloc in Hclean1.
  destruct (reader_block_lines bag_path bag_file_name
              (out1 ++ [ParsingFrom bag_path]) Ros2bagToDora.empty_data)
    as (added & Hout & Hclean2).
  rewrite run_parse_eq, locate_any_state, Hloc. cbn [fst snd].
  rewrite Hblock in *. destruct st2 as [out2 d]. cbn [fst snd] in *.
  split; [reflexivity|]. subst out2.
  rewrite !List.filter_app, Hclean1, Hclean2. reflexivity.
Qed.

(** C3, as amended: when the path resolves to a bag directory, the
    reader opens, and some message on ["/Imu"] or ["/odom"] does not
    deserialize, the scan is aborted: [parse_ros2_bag] returns [None],
    no record at all, and its last line reports an exception. *)
Theorem failed_message_aborts_scan
    (p bag_path : string) (bag_file_name : BagFileName)
    (out1 : list LogLine) (reader : Reader) :
  run_locate fs p = (out1, Ok (Some (bag_path, bag_file_name))) ->
  open_reader bag_path = Ok reader ->
  existsb (undecodable deserialize_cdr) (messages reader) = true ->
  exists out e,
    Ros2bagToDora.run_parse fs open_reader fromtimestamp deserialize_cdr p
    = (out ++ [ErrorParsing e], Ok None).
Proof.
  intros Hloc Hopen Hbad.
  rewrite run_parse_eq, locate_any_state, Hloc. cbn [fst snd].
  unfold Ros2bagToDora.reader_block.
  unfold bind at 1, lift at 1. rewrite Hopen.
  unfold bind at 1.
  destruct (summary_lines fs fromtimestamp bag_path bag_file_name reader
              (out1 ++ [ParsingFrom bag_path]) Ros2bagToDora.empty_data)
    as [[e ->] | (added & -> & _)]; [eauto|].
  unfold bind at 1, modify at 1. unfold bind at 1. unfold extract.
  unfold bind at 1.
  destruct (for_each_undecodable deserialize_cdr (messages reader)
              ((out1 ++ [ParsingFrom bag_path]) ++ added, Ros2bagToDora.empty_data)
              Hbad) as ([out' d] & e & ->).
  eauto.
Qed.

(** C8: when the path resolves to a bag directory, the reader opens, the
    summary completes, the message iterator does not fail, no message is
    on ["/Imu"] and every message on ["/odom"] deserializes,
    [parse_ros2_bag] returns a structure with an empty ["/Imu"]
    sequence and, under ["/odom"], one record per odometry message, in
    the order of the iterator; messages on other topics are passed over
    without being deserialized. *)
Theorem odometry_only_bag
    (p bag_path : string) (bag_file_name : BagFileName)
    (out1 : list LogLine) (reader : Reader) :
  run_locate fs p = (out1, Ok (Some (bag_path, bag_file_name))) ->
  open_reader bag_path = Ok reader ->
  (summary fs fromtimestamp bag_path bag_file_name reader ([], tt)).2 = Ok tt ->
  messages_failure reader = None ->
  forallb (fun m => negb (on_topic "/Imu" m)) (messages reader) = true ->
  odom_decodable deserialize_cdr (messages reader) = true ->
  let records := odom_records deserialize_cdr (messages reader) in
  (Ros2bagToDora.run_parse fs open_reader fromtimestamp deserialize_cdr p).2
  = Ok (Some {| Imu := []; odom := records |})
  /\ map Ok records
     = map (odom_record deserialize_cdr)
         (List.filter (on_topic "/odom") (messages reader))
  /\ length records = length (List.filter (on_topic "/odom") (messages reader)).
Proof.
  intros Hloc Hopen Hsum Hiter Himu Hodom records.
  pose proof (odom_records_decodable deserialize_cdr _ Hodom) as Hrec.
  fold records in Hrec.
  refine (conj _ (conj Hrec _)).
  - rewrite run_parse_eq, locate_any_state, Hloc. cbn [fst snd].
    unfold Ros2bagToDora.reader_block.
    unfold bind at 1, lift at 1. rewrite Hopen.
    unfold bind at 1.
    destruct (summary_ok_any_state fs fromtimestamp bag_path bag_file_name reader
                (out1 ++ [ParsingFrom bag_path]) Ros2bagToDora.empty_data Hsum)
      as [added ->].
    unfold bind at 1, modify at 1. unfold bind at 1. unfold extract.
    unfold bind at 1.
    rewrite (for_each_odom_only deserialize_cdr _ _ _ Himu Hodom), Hiter.
    reflexivity.
  - apply (f_equal length) in Hrec. now rewrite !length_map in Hrec.
Qed.

End ReaderBlock.

(** C9: when the summary completes, the one end line it prints shows the
    local time and the seconds of [starting_time.nanoseconds_since_epoch +
    duration.nanoseconds], a sum of integers: the two are added before any
    conversion to a float. *)
Theorem end_time_is_start_plus_duration
    (fs : FileSystem) (fromtimestamp : float -> result string) {S}
    (bag_path : string) (bag_file_name : BagFileName) (reader : Reader)
    (out out' : list LogLine) (s s' : S) :
  summary fs fromtimestamp bag_path bag_file_name reader (out, s)
  = ((out', s'), Ok tt) ->
  exists added end_datetime end_s,
    out' = out ++ added
    /\ int_truediv_1e9 (starting_time_nanoseconds_since_epoch (metadata reader)
                        + duration_nanoseconds (metadata reader)) = Ok end_s
    /\ fromtimestamp end_s = Ok end_datetime
    /\ List.filter is_end_line added = [LineEnd end_datetime end_s].
Proof.
  rewrite summary_eq. cbv zeta.
  repeat (case_result; [|discriminate]).
  intros H. injection H as <- <-.
  eexists _, _, _.
  refine (conj eq_refl (conj eq_refl (conj _ _))); [eassumption|].
  cbn [app List.filter is_end_line].
  now rewrite no_end_line_in_topic_lines.
Qed.

Lemma reader_exceptions_witness :
  Ros2bagToDora.run_parse SampleBag.fs SampleBag.open_fails SampleBag.fromtimestamp
    SampleBag.deserialize_cdr "foo/bar.db3"
  = ([WarningDb3Provided "foo"; ParsingFrom "foo";
      ErrorParsing (LibraryError "metadata.yaml is missing")], Ok None)
  /\ List.filter is_parse_error
       [WarningDb3Provided "foo"; ParsingFrom "foo";
        ErrorParsing (LibraryError "metadata.yaml is missing")]
     = [ErrorParsing (LibraryError "metadata.yaml is missing")].
Proof.
  exact (reader_exceptions_are_caught SampleBag.fs SampleBag.open_fails
           SampleBag.fromtimestamp SampleBag.deserialize_cdr
           "foo/bar.db3" "foo" (BaseName "bar.db3") [WarningDb3Provided "foo"]
           ([WarningDb3Provided "foo"; ParsingFrom "foo"], Ros2bagToDora.empty_data)
           (LibraryError "metadata.yaml is missing") eq_refl eq_refl).
Defined.

Lemma failed_message_witness :
  exists out e,
    Ros2bagToDora.run_parse SampleBag.fs SampleBag.open_corrupt SampleBag.fromtimestamp
      SampleBag.deserialize_cdr "foo"
    = (out ++ [ErrorParsing e], Ok None).
Proof.
  exact (failed_message_aborts_scan SampleBag.fs SampleBag.open_corrupt
           SampleBag.fromtimestamp SampleBag.deserialize_cdr
           "foo" "foo" (Db3Files ["bar.db3"]) [] SampleBag.corrupt_reader
           eq_refl eq_refl eq_refl).
Defined.

(** C3, as stated, fails: in the sample bag whose first message, on
    ["/Imu"], does not deserialize, [parse_ros2_bag] returns [None], while
    without that message it returns the odometry record that follows. *)
Lemma failed_message_is_not_skipped : ~ Ros2bagToDora.failed_message_is_skipped.
Proof.
  intros H.
  specialize (H SampleBag.fs SampleBag.fromtimestamp SampleBag.deserialize_cdr
                SampleBag.corrupt_reader []
                [(SampleBag.odom_connection, 12, [x01])]
                (SampleBag.imu_connection, 10, []) "foo" eq_refl eq_refl).
  vm_compute in H. discriminate H.
Qed.

Lemma odometry_only_witness :
  (Ros2bagToDora.run_parse SampleBag.fs SampleBag.open_odom SampleBag.fromtimestamp
     SampleBag.deserialize_cdr "foo").2
  = Ok (Some {| Imu := []; odom := [Sample.odom_at 10; Sample.odom_at 12] |}).
Proof.
  exact (proj1 (odometry_only_bag SampleBag.fs SampleBag.open_odom
                  SampleBag.fromtimestamp SampleBag.deserialize_cdr
                  "foo" "foo" (Db3Files ["bar.db3"]) [] SampleBag.odom_reader
                  eq_refl eq_refl eq_refl eq_refl eq_refl eq_refl)).
Defined.

Lemma end_time_witness :
  exists added end_datetime end_s,
    (summary SampleBag.fs SampleBag.fromtimestamp "foo" (Db3Files ["bar.db3"])
       SampleBag.odom_reader ([], tt)).1.1 = [] ++ added
    /\ int_truediv_1e9 (1700000000000000000 + 2500000000) = Ok end_s
    /\ SampleBag.fromtimestamp end_s = Ok end_datetime
    /\ List.filter is_end_line added = [LineEnd end_datetime end_s].
Proof.
  exact (end_time_is_start_plus_duration SampleBag.fs SampleBag.fromtimestamp
           "foo" (Db3Files ["bar.db3"]) SampleBag.odom_reader []
           (summary SampleBag.fs SampleBag.fromtimestamp "foo" (Db3Files ["bar.db3"])
              SampleBag.odom_reader ([], tt)).1.1 tt tt eq_refl).
Defined.

(** C10: a bare file name that names an existing file and ends in [.db3]
    has the empty [os.path.dirname]; the empty path is no directory, and
    [parse_ros2_bag], in both files, prints the warning and the
    invalid-bag-directory line and returns nothing, without opening the
    bag. *)
Theorem bare_db3_name_is_rejected
    (fs : FileSystem) (open_reader : string -> result Reader)
    (fromtimestamp : float -> result string)
    (deserialize_cdr : list byte -> string -> result Msg) (name : string) :
  contains_slash name = false ->
  isfile fs name = true ->
  endswith name ".db3" = true ->
  dirname name = ""
  /\ isdir fs (dirname name) = false
  /\ Ros2bagToDora.run_parse fs open_reader fromtimestamp deserialize_cdr name
     = ([WarningDb3Provided ""; ErrorNotBagDirectory ""], Ok None)
  /\ Ros2bagRead.run_parse fs open_reader fromtimestamp name
     = ([WarningDb3Provided ""; ErrorNotBagDirectory ""], Ok tt).
Proof.
  intros Hbare Hfile Hext.
  pose proof (dirname_bare name Hbare) as Hdir.
  assert (Hloc : forall S (s : S),
             locate fs name ([], s)
             = (([WarningDb3Provided ""; ErrorNotBagDirectory ""], s), Ok None)).
  { intros S s. rewrite locate_eq, (isfile_exists _ _ Hfile), Hfile, Hext, Hdir.
    reflexivity. }
  rewrite Hdir. refine (conj eq_refl (conj eq_refl (conj _ _))).
  - now rewrite run_parse_eq, Hloc.
  - unfold Ros2bagRead.run_parse, Ros2bagRead.parse_ros2_bag.
    unfold bind at 1. now rewrite Hloc.
Qed.

Lemma bare_db3_name_witness :
  Ros2bagToDora.run_parse SampleBag.fs SampleBag.open_odom SampleBag.fromtimestamp
    SampleBag.deserialize_cdr "bar.db3"
  = ([WarningDb3Provided ""; ErrorNotBagDirectory ""], Ok None).
Proof.
  apply (bare_db3_name_is_rejected SampleBag.fs SampleBag.open_odom
           SampleBag.fromtimestamp SampleBag.deserialize_cdr "bar.db3");
    reflexivity.
Defined.

End BagFacts.

(** ** More on the emitter *)
Module EmitterMore.
Import Dora Host Emission DoraFacts.

Lemma py_getitem_slice {A} (l : list A) (i : Z) (x : A) :
  0 <= i -> py_getitem l i = Ok x -> slice l i (i + 1) = [x].
Proof.
  intros Hi. unfold py_getitem, slice.
  destruct (Z.ltb_spec i 0); [lia|].
  destruct (_ || _); [discriminate|].
  destruct (l !! Z.to_nat i) as [y|] eqn:E; [|discriminate].
  intros [= ->]. replace (i + 1 - i) with 1 by lia.
  rewrite <- (take_drop_middle l (Z.to_nat i) x E) at 1.
  rewrite drop_app_length'; [reflexivity|].
  rewrite length_take. apply lookup_lt_Some in E. lia.
Qed.

Lemma slice_empty {A} (l : list A) (i : Z) : slice l i i = [].
Proof. unfold slice. now rewrite Z.sub_diag. Qed.

Lemma slice_app {A} (l : list A) (i j k : Z) :
  0 <= i <= j -> j <= k -> slice l i j ++ slice l j k = slice l i k.
Proof.
  intros Hij Hjk. unfold slice.
  replace (Z.to_nat (k - i)) with (Z.to_nat (j - i) + Z.to_nat (k - j))%nat by lia.
  replace (Z.to_nat j) with (Z.to_nat i + Z.to_nat (j - i))%nat by lia.
  rewrite <- drop_drop. apply take_take_drop.
Qed.

Lemma slice_all {A} (l : list A) (j : Z) : len l <= j -> slice l 0 j = l.
Proof. intros H. unfold slice, len in *. cbn. apply take_ge. lia. Qed.

(** One call from an operator whose indices are in range: what it sends are
    the records between the old and the new indices. *)
Lemma call_in_range (o : DoraBagOperator) (ev : Event) (now : float) :
  in_range o ->
  let o' := (call o ev now).1 in
  let c := (call o ev now).2 in
  in_range o'
  /\ call_sent c
     = map (fun r => imu_output r (ev_metadata ev))
         (slice (Imu (all_data o)) (imu_index o) (imu_index o'))
       ++ map (fun r => odom_output r (ev_metadata ev))
            (slice (odom (all_data o)) (odom_index o) (odom_index o')).
Proof.
  intros [Hi Ho]. unfold call, on_event, in_range. py_unfold.
  cbn -[float_truediv_int float_ge String.eqb].
  repeat case_split; cbn -[float_truediv_int float_ge String.eqb] in *.
  all: repeat match goal with
       | H : (_ <? _) = true |- _ => apply Z.ltb_lt in H
       | H : (_ <? _) = false |- _ => apply Z.ltb_ge in H
       | H : py_getitem ?l ?i = Raise _ |- _ =>
           let X := fresh in
           destruct (py_getitem_in_range l i) as [? X]; [lia|congruence]
       | H : py_getitem ?l ?i = Ok ?x |- _ =>
           apply py_getitem_slice in H; [rewrite H|lia]
       end.
  all: rewrite ?slice_empty; split; [lia|reflexivity].
Qed.

Lemma payloads_app (t : string) (xs ys : list Output) :
  payloads t (xs ++ ys) = payloads t xs ++ payloads t ys.
Proof. unfold payloads. now rewrite List.filter_app, map_app. Qed.

Lemma payloads_imu_outputs (t : string) (m : event_metadata) (rs : list ImuRecord) :
  payloads t (map (fun r => imu_output r m) rs)
  = if String.eqb "imu_json" t then map json_imu rs else [].
Proof.
  unfold payloads, has_tag.
  destruct (String.eqb "imu_json" t) eqn:E;
    induction rs as [|r rs IH]; cbn -[String.eqb]; rewrite ?E; cbn; congruence.
Qed.

Lemma payloads_odom_outputs (t : string) (m : event_metadata) (rs : list OdomRecord) :
  payloads t (map (fun r => odom_output r m) rs)
  = if String.eqb "odom_json" t then map json_odom rs else [].
Proof.
  unfold payloads, has_tag.
  destruct (String.eqb "odom_json" t) eqn:E;
    induction rs as [|r rs IH]; cbn -[String.eqb]; rewrite ?E; cbn; congruence.
Qed.

(** Over a run, what is sent under each tag are the records between the
    first and the last value of its index. *)
Lemma run_in_range (o : DoraBagOperator) (evs : list (Event * float)) :
  in_range o ->
  in_range (run o evs).1
  /\ payloads "imu_json" (outputs (run o evs).2)
     = map json_imu (slice (Imu (all_data o)) (imu_index o) (imu_index (run o evs).1))
  /\ payloads "odom_json" (outputs (run o evs).2)
     = map json_odom (slice (odom (all_data o)) (odom_index o) (odom_index (run o evs).1)).
Proof.
  revert o. induction evs as [|[ev now] evs IH]; intros o Hr.
  - cbn. now rewrite !slice_empty.
  - rewrite run_cons. cbn [fst snd].
    destruct (call_in_range o ev now Hr) as [Hr1 Hsent].
    destruct (call_step o ev now) as (Hd & _ & Hi & Ho & _).
    destruct (IH _ Hr1) as (Hr2 & Himu & Hodom).
    destruct (run_indices (call o ev now).1 evs) as (_ & _ & Hi2 & Ho2).
    unfold outputs in *. cbn [map concat].
    rewrite !payloads_app, Himu, Hodom, Hsent, !payloads_app.
    rewrite !payloads_imu_outputs, !payloads_odom_outputs. cbn [String.eqb Ascii.eqb].
    cbn. rewrite !app_nil_r, Hd, <- !map_app.
    destruct Hr as [? ?].
    rewrite !slice_app by lia. auto.
Qed.

(** X1: an event that is not a [TIMER_TICK] changes nothing and sends
    nothing, and [on_event] returns [CONTINUE]; an ["INPUT"] event prints
    nothing, ["STOP"] prints its line, any other type is printed as
    unexpected. *)
Theorem other_events_change_nothing
    (o : DoraBagOperator) (ev : Event) (now : float) :
  ev_type ev <> "TIMER_TICK" ->
  call o ev now
  = (o, quiet (Ok CONTINUE)
          (if String.eqb (ev_type ev) "INPUT" then []
           else if String.eqb (ev_type ev) "STOP" then ["received stop"]
           else [String.append "received unexpected event: " (ev_type ev)])).
Proof.
  intros Hty. unfold call, on_event. py_unfold.
  destruct (String.eqb_spec (ev_type ev) "TIMER_TICK") as [|_]; [contradiction|].
  destruct (String.eqb (ev_type ev) "INPUT"); [now destruct o|].
  destruct (String.eqb (ev_type ev) "STOP"); now destruct o.
Qed.

Lemma other_events_witness :
  call Sample.one_left {| ev_type := "RELOAD"; ev_metadata := [] |} 5
  = (Sample.one_left, quiet (Ok CONTINUE) ["received unexpected event: RELOAD"]).
Proof.
  apply (other_events_change_nothing Sample.one_left
           {| ev_type := "RELOAD"; ev_metadata := [] |} 5%float).
  discriminate.
Defined.

(** X2: with [send_frequency = 0] every [TIMER_TICK] raises
    [ZeroDivisionError]; nothing is sent or printed and the operator is as
    before. *)
Theorem zero_frequency_tick_raises
    (o : DoraBagOperator) (m : event_metadata) (now : float) :
  send_frequency o = 0 ->
  call o (tick m) now = (o, quiet (Raise ZeroDivisionError) []).
Proof.
  intros Hf. unfold call, on_event. py_unfold.
  cbn -[float_truediv_int float_ge]. rewrite Hf.
  assert (Hz : float_truediv_int 1 0 = Raise ZeroDivisionError)
    by (vm_compute; reflexivity).
  rewrite Hz. now destruct o.
Qed.

Lemma zero_frequency_witness :
  call (configure {| Imu := [Sample.imu_at 1]; odom := [] |} 0 (init 0)) (tick []) 7
  = (configure {| Imu := [Sample.imu_at 1]; odom := [] |} 0 (init 0),
     quiet (Raise ZeroDivisionError) []).
Proof.
  apply (zero_frequency_tick_raises
           (configure {| Imu := [Sample.imu_at 1]; odom := [] |} 0 (init 0)) [] 7%float).
  reflexivity.
Defined.

Lemma call_stop_inv (o : DoraBagOperator) (ev : Event) (now : float) :
  call_result (call o ev now).2 = Ok STOP ->
  ev_type ev = "TIMER_TICK"
  /\ gate_open o now = true
  /\ finished (call o ev now).1 = true
  /\ last_send_time (call o ev now).1 = now
  /\ call_printed (call o ev now).2 = ["Finished sending all IMU and Odom data."].
Proof.
  unfold call, on_event, gate_open, finished. py_unfold.
  cbn -[float_truediv_int float_ge String.eqb].
  destruct (String.eqb (ev_type ev) "INPUT"); [discriminate|].
  destruct (String.eqb_spec (ev_type ev) "TIMER_TICK") as [Hty|_].
  2: { destruct (String.eqb (ev_type ev) "STOP"); discriminate. }
  repeat case_split; cbn -[float_truediv_int float_ge String.eqb] in *;
    try discriminate; intros _.
  all: repeat split; congruence.
Qed.

(** X3: [on_event] returns [STOP] only on a [TIMER_TICK] that passes the
    interval test, after which nothing is left to send; the call has set
    [last_send_time] to the time of the tick and printed the closing
    line. *)
Theorem stop_only_when_all_sent
    (o : DoraBagOperator) (ev : Event) (now : float) :
  call_result (call o ev now).2 = Ok STOP ->
  ev_type ev = "TIMER_TICK"
  /\ gate_open o now = true
  /\ finished (call o ev now).1 = true
  /\ last_send_time (call o ev now).1 = now
  /\ call_printed (call o ev now).2 = ["Finished sending all IMU and Odom data."].
Proof. apply call_stop_inv. Qed.

Lemma stop_only_witness :
  finished (call (configure {| Imu := [Sample.imu_at 1]; odom := [] |} 10 (init 0))
              (tick []) 1).1 = true.
Proof.
  apply (stop_only_when_all_sent
           (configure {| Imu := [Sample.imu_at 1]; odom := [] |} 10 (init 0))
           (tick []) 1%float).
  reflexivity.
Defined.

(** X4: from an operator whose indices are positions of their sequences,
    whatever the events, the payloads sent under ["imu_json"] are the IMU
    records from the first to the last value of [imu_index], in order and
    once each, and likewise for ["odom_json"]: no record is skipped,
    repeated or sent out of order. *)
Theorem run_sends_the_slice (o : DoraBagOperator) (evs : list (Event * float)) :
  in_range o ->
  payloads "imu_json" (outputs (run o evs).2)
  = map json_imu (slice (Imu (all_data o)) (imu_index o) (imu_index (run o evs).1))
  /\ payloads "odom_json" (outputs (run o evs).2)
     = map json_odom (slice (odom (all_data o)) (odom_index o) (odom_index (run o evs).1)).
Proof. intros Hr. now destruct (run_in_range o evs Hr) as (_ & ? & ?). Qed.

Lemma run_sends_the_slice_witness :
  payloads "imu_json"
    (outputs (run Sample.two_left [(tick [], 1%float); (stop_signal [], 1%float)]).2)
  = map json_imu (slice [Sample.imu_at 1; Sample.imu_at 2] 0 1).
Proof.
  apply (run_sends_the_slice Sample.two_left
           [(tick [], 1%float); (stop_signal [], 1%float)]).
  vm_compute. repeat split; discriminate.
Defined.

Lemma finished_exhausted (o : DoraBagOperator) : finished o = true <-> exhausted o.
Proof.
  unfold finished, exhausted. rewrite andb_true_iff, !Z.leb_le. reflexivity.
Qed.

Lemma stopped_finished (o : DoraBagOperator) (evs : list (Event * float)) :
  stopped (run o evs).2 = true -> exhausted (run o evs).1.
Proof.
  revert o. induction evs as [|[ev now] evs IH]; intros o; [discriminate|].
  rewrite run_cons. cbn [fst snd stopped existsb].
  destruct (call_result (call o ev now).2) as [[]|e] eqn:E; cbn [orb]; try apply IH.
  intros _. apply run_exhausted, finished_exhausted.
  now destruct (call_stop_inv o ev now E) as (_ & _ & ? & _).
Qed.

(** X5: when an operator that starts at index 0 of both sequences has
    returned [STOP], every IMU record and every odometry record has been
    sent, each once and in the order of its sequence, however many events of
    whatever type came before or after. *)
Theorem stop_means_everything_sent (o : DoraBagOperator) (evs : list (Event * float)) :
  imu_index o = 0 -> odom_index o = 0 ->
  stopped (run o evs).2 = true ->
  payloads "imu_json" (outputs (run o evs).2) = map json_imu (Imu (all_data o))
  /\ payloads "odom_json" (outputs (run o evs).2) = map json_odom (odom (all_data o)).
Proof.
  intros Hi Ho Hstop.
  assert (Hr : in_range o) by (unfold in_range, len; lia).
  destruct (run_in_range o evs Hr) as (Hr' & -> & ->).
  destruct (stopped_finished o evs Hstop) as [Hei Heo].
  destruct (run_indices o evs) as (Hd & _).
  rewrite Hd in Hei, Heo. rewrite Hi, Ho, !slice_all by assumption. auto.
Qed.

Lemma stop_means_everything_sent_witness :
  payloads "imu_json"
    (outputs (run Sample.two_left (ticks_at [] [1; 2; 3]%float)).2)
  = map json_imu [Sample.imu_at 1; Sample.imu_at 2].
Proof.
  apply (stop_means_everything_sent Sample.two_left (ticks_at [] [1; 2; 3]%float));
    reflexivity.
Defined.

(** A tick that passes the interval test, on an operator whose indices are
    in range. *)
Lemma open_tick (o : DoraBagOperator) (m : event_metadata) (now : float) :
  in_range o -> gate_open o now = true ->
  let o' := (call o (tick m) now).1 in
  imu_index o' = Z.min (imu_index o + 1) (len (Imu (all_data o)))
  /\ odom_index o' = Z.min (odom_index o + 1) (len (odom (all_data o)))
  /\ last_send_time o' = now
  /\ call_result (call o (tick m) now).2
     = Ok (if finished o' then STOP else CONTINUE).
Proof.
  intros [Hi Ho]. unfold call, on_event, gate_open, finished. py_unfold.
  cbn -[float_truediv_int float_ge].
  destruct (float_truediv_int 1 (send_frequency o)) as [iv|e]; [|discriminate].
  intros ->.
  repeat case_split; cbn -[float_truediv_int float_ge] in *.
  all: repeat match goal with
       | H : (_ <? _) = true |- _ => apply Z.ltb_lt in H
       | H : (_ <? _) = false |- _ => apply Z.ltb_ge in H
       | H : py_getitem ?l ?i = Raise _ |- _ =>
           let X := fresh in
           destruct (py_getitem_in_range l i) as [? X]; [lia|congruence]
       end.
  all: repeat split; try lia; reflexivity.
Qed.

Lemma first_stop_open_ticks (o : DoraBagOperator) (m : event_metadata)
    (clock : list float) :
  in_range o ->
  all_open (send_frequency o) (last_send_time o) clock = true ->
  let need := Z.max 1 (Z.max (len (Imu (all_data o)) - imu_index o)
                         (len (odom (all_data o)) - odom_index o)) in
  need <= len clock ->
  first_stop (statuses (run o (ticks_at m clock)).2) = Some (Z.to_nat need).
Proof.
  revert o. induction clock as [|now clock IH]; intros o Hr Hopen need Hlen.
  - unfold len in Hlen. cbn in Hlen. lia.
  - cbn [all_open] in Hopen.
    destruct (float_truediv_int 1 (send_frequency o)) as [iv|e] eqn:Hiv; [|discriminate].
    apply andb_true_iff in Hopen as [Hgate Hopen].
    assert (Hg : gate_open o now = true) by (unfold gate_open; now rewrite Hiv).
    destruct (open_tick o m now Hr Hg) as (Hi & Ho & Hlast & Hres).
    destruct (call_in_range o (tick m) now Hr) as [Hr1 _].
    destruct (call_step o (tick m) now) as (Hd & Hf & _).
    cbn [ticks_at map]. fold (ticks_at m clock). rewrite run_cons. cbn [snd statuses map].
    rewrite Hres. fold (statuses (run (call o (tick m) now).1 (ticks_at m clock)).2).
    destruct Hr as [Hri Hro].
    destruct (finished (call o (tick m) now).1) eqn:Hfin.
    + cbn [first_stop]. f_equal.
      apply finished_exhausted in Hfin. destruct Hfin as [Hfi Hfo].
      rewrite Hd in Hfi, Hfo. subst need. lia.
    + cbn [first_stop].
      assert (Hnot : ~ exhausted (call o (tick m) now).1).
      { intros Hex. apply finished_exhausted in Hex. congruence. }
      unfold exhausted in Hnot. rewrite Hd in Hnot.
      rewrite IH; [ | assumption | now rewrite Hf, Hlast | ].
      * cbn [option_map]. f_equal. rewrite Hd. subst need. lia.
      * rewrite Hd. unfold len in *. cbn [length] in Hlen. subst need. lia.
Qed.

(** X6: an operator that starts at index 0 of both sequences and receives
    ticks that all pass the interval test returns [STOP] for the first time
    on tick number [max(len(imu), len(odom))], or on the first tick when
    both sequences are empty. *)
Theorem stops_after_longest_sequence (o : DoraBagOperator) (m : event_metadata)
    (clock : list float) :
  imu_index o = 0 -> odom_index o = 0 ->
  all_open (send_frequency o) (last_send_time o) clock = true ->
  Z.max 1 (Z.max (len (Imu (all_data o))) (len (odom (all_data o)))) <= len clock ->
  first_stop (statuses (run o (ticks_at m clock)).2)
  = Some (Z.to_nat (Z.max 1 (Z.max (len (Imu (all_data o))) (len (odom (all_data o)))))).
Proof.
  intros Hi Ho Hopen Hlen.
  assert (Hr : in_range o) by (unfold in_range, len; lia).
  pose proof (first_stop_open_ticks o m clock Hr Hopen) as H.
  cbv zeta in H. rewrite Hi, Ho, !Z.sub_0_r in H. now apply H.
Qed.

Lemma stops_after_longest_sequence_witness :
  first_stop (statuses (run Sample.two_left (ticks_at [] [1; 2; 3]%float)).2)
  = Some 2%nat.
Proof.
  apply (stops_after_longest_sequence Sample.two_left [] [1; 2; 3]%float);
    first [reflexivity | vm_compute; discriminate].
Defined.

(** X19: whatever a call of [on_event] sends carries the metadata of its
    event; within one call the IMU record, if any, is sent before the
    odometry record, if any, and nothing else is sent. *)
Theorem outputs_carry_event_metadata
    (o : DoraBagOperator) (ev : Event) (now : float) :
  exists (imu : list ImuRecord) (odometry : list OdomRecord),
    call_sent (call o ev now).2
    = map (fun r => imu_output r (ev_metadata ev)) imu
      ++ map (fun r => odom_output r (ev_metadata ev)) odometry
    /\ (length imu <= 1)%nat /\ (length odometry <= 1)%nat.
Proof.
  unfold call, on_event. py_unfold.
  cbn -[float_truediv_int float_ge String.eqb].
  repeat case_split; cbn -[float_truediv_int float_ge String.eqb].
  all: first
         [ exists [], []; cbn; repeat split; lia
         | match goal with
           | |- context [json_imu ?a] =>
               match goal with
               | |- context [json_odom ?b] => exists [a], [b]
               | _ => exists [a], []
               end
           | |- context [json_odom ?b] => exists [], [b]
           end; cbn; repeat split; lia ].
Qed.

End EmitterMore.

(** ** [main] *)
Module MainFacts.
Import Dora Host Emission Main DoraFacts EmitterMore.

Lemma sent_payloads_app (t : string) (xs ys : list MainLine) :
  sent_payloads t (xs ++ ys) = sent_payloads t xs ++ sent_payloads t ys.
Proof. unfold sent_payloads. apply flat_map_app. Qed.

Lemma sent_payloads_from_parse (t : string) (out : list Bag.LogLine) :
  sent_payloads t (map FromParse out) = [].
Proof. induction out as [|l out IH]; [reflexivity|exact IH]. Qed.

Lemma sent_payloads_call_lines (t : string) (c : Call) :
  sent_payloads t (call_lines c) = payloads t (call_sent c).
Proof.
  unfold call_lines. rewrite sent_payloads_app.
  assert (Hp : sent_payloads t (map FromOperator (call_printed c)) = []).
  { induction (call_printed c) as [|l ls IH]; [reflexivity|exact IH]. }
  rewrite Hp, app_nil_r. unfold sent_payloads, payloads, has_tag.
  induction (call_sent c) as [|out outs IH]; [reflexivity|].
  cbn -[String.eqb]. destruct (String.eqb (output_id out) t); cbn -[String.eqb];
    now rewrite IH.
Qed.

(** The loop is a run of ticks over a first part of the clock. *)
Lemma simulate_is_a_run (frequency : Z) (o : DoraBagOperator) (clock : list float) :
  exists k : nat,
    let cs := (run o (ticks_at [] (take k clock))).2 in
    (simulate frequency o clock).1 = concat (map call_lines cs)
    /\ ((simulate frequency o clock).2 = Returned -> stopped cs = true).
Proof.
  revert o. induction clock as [|now clock IH]; intros o.
  - exists 0%nat. cbn. split; [reflexivity|discriminate].
  - cbn [simulate].
    destruct (call o (tick []) now) as [o' c] eqn:Hcall.
    assert (Hone : (run o (ticks_at [] (take 1 (now :: clock)))).2 = [c]).
    { cbn. now rewrite Hcall. }
    destruct (call_result c) as [[]|e] eqn:Hres.
    + destruct (float_truediv_int 1 frequency) as [length|e].
      2: { exists 1%nat. rewrite Hone. cbn. rewrite app_nil_r.
           split; [reflexivity|discriminate]. }
      destruct (PrimFloat.ltb length 0).
      { exists 1%nat. rewrite Hone. cbn. rewrite app_nil_r.
        split; [reflexivity|discriminate]. }
      destruct (IH o') as (k & Hlines & Hexit).
      destruct (simulate frequency o' clock) as [rest exit].
      exists (S k). cbn [take ticks_at map]. fold (ticks_at [] (take k clock)).
      rewrite run_cons, Hcall. cbn [fst snd map concat stopped existsb] in *.
      rewrite Hlines, Hres. split; [reflexivity|exact Hexit].
    + exists 1%nat. rewrite Hone. cbn. rewrite app_nil_r, Hres.
      split; [reflexivity|reflexivity].
    + exists 1%nat. rewrite Hone. cbn. rewrite app_nil_r.
      split; [reflexivity|discriminate].
Qed.

(** With a sleep length that is not negative and ticks that all pass the
    interval test, the loop ends once the longer sequence is sent. *)
Lemma simulate_returns (frequency : Z) (length : float) (o : DoraBagOperator)
    (clock : list float) :
  in_range o -> send_frequency o = frequency ->
  float_truediv_int 1 frequency = Ok length ->
  PrimFloat.ltb length 0 = false ->
  all_open frequency (last_send_time o) clock = true ->
  Z.max 1 (Z.max (len (Imu (all_data o)) - imu_index o)
             (len (odom (all_data o)) - odom_index o)) <= len clock ->
  (simulate frequency o clock).2 = Returned.
Proof.
  intros Hr Hf Hlen Hsleep. revert o Hr Hf.
  induction clock as [|now clock IH]; intros o Hr Hf Hopen Hneed.
  - unfold len in Hneed. cbn in Hneed. lia.
  - cbn [all_open] in Hopen. rewrite Hlen in Hopen.
    apply andb_true_iff in Hopen as [Hgate Hopen].
    assert (Hg : gate_open o now = true) by (unfold gate_open; now rewrite Hf, Hlen).
    destruct (open_tick o [] now Hr Hg) as (Hi & Ho & Hlast & Hres).
    destruct (call_in_range o (tick []) now Hr) as [Hr1 _].
    destruct (call_step o (tick []) now) as (Hd & Hf1 & _).
    cbn [simulate].
    destruct (call o (tick []) now) as [o' c]. cbn [fst snd] in *.
    rewrite Hres.
    destruct (finished o') eqn:Hfin; [reflexivity|].
    rewrite Hlen, Hsleep.
    assert (Hnot : ~ exhausted o').
    { intros Hex. apply finished_exhausted in Hex. congruence. }
    unfold exhausted in Hnot. rewrite Hd in Hnot.
    specialize (IH o' Hr1 (eq_trans Hf1 Hf)).
    destruct (simulate frequency o' clock) as [rest exit]. cbn [snd] in *.
    apply IH; [now rewrite Hlast|].
    destruct Hr as [Hri Hro].
    rewrite Hd. unfold len in *. cbn [Datatypes.length] in Hneed. lia.
Qed.

Lemma sent_payloads_calls (t : string) (cs : list Call) :
  sent_payloads t (concat (map call_lines cs)) = payloads t (outputs cs).
Proof.
  unfold outputs. induction cs as [|c cs IH]; [reflexivity|].
  cbn [map concat]. now rewrite sent_payloads_app, payloads_app, sent_payloads_call_lines, IH.
Qed.

Section WithEnvironment.
Variable fs : Posix.FileSystem.
Variable open_reader : string -> result Rosbags.Reader.
Variable fromtimestamp : float -> result string.
Variable deserialize_cdr : list byte -> string -> result Rosbags.Msg.

(** X7: when [main] returns after a successful extraction, the payloads
    its callback printed under ["imu_json"] are the extracted IMU records,
    all of them, once each and in order, and likewise for ["odom_json"],
    whatever the frequency and the clock readings. *)
Theorem main_sends_everything
    (bag_path : string) (frequency : Z) (t0 : float) (clock : list float)
    (out : list Bag.LogLine) (d : ExtractedData) (lines : list MainLine) :
  Ros2bagToDora.run_parse fs open_reader fromtimestamp deserialize_cdr bag_path
  = (out, Ok (Some d)) ->
  main fs open_reader fromtimestamp deserialize_cdr bag_path frequency t0 clock
  = (lines, Returned) ->
  sent_payloads "imu_json" lines = map json_imu (Imu d)
  /\ sent_payloads "odom_json" lines = map json_odom (odom d).
Proof.
  intros Hparse. unfold main. rewrite Hparse.
  destruct (simulate_is_a_run frequency (configure d frequency (init t0)) clock)
    as (k & Hlines & Hexit).
  destruct (simulate frequency (configure d frequency (init t0)) clock) as [sim exit].
  cbn [fst snd] in *. intros [= <- ->].
  rewrite !sent_payloads_app, !sent_payloads_from_parse, Hlines.
  change (sent_payloads ?t (ReadyToSend :: Simulating frequency :: ?l))
    with (sent_payloads t l).
  rewrite !sent_payloads_calls. cbn [app].
  assert (Hr : in_range (configure d frequency (init t0)))
    by (unfold in_range, len; cbn; lia).
  destruct (run_in_range (configure d frequency (init t0))
              (ticks_at [] (take k clock)) Hr) as (_ & -> & ->).
  destruct (stopped_finished _ _ (Hexit eq_refl)) as [Hei Heo].
  destruct (run_indices (configure d frequency (init t0)) (ticks_at [] (take k clock)))
    as (Hd & _).
  rewrite Hd in Hei, Heo. cbn in Hei, Heo |- *.
  rewrite !slice_all by assumption. auto.
Qed.

(** X20: after a successful extraction, when [1.0 / frequency] is not
    negative, every tick passes the interval test and the clock has at
    least [max(len(imu), len(odom))] readings (one if both are empty),
    [main] returns. *)
Theorem main_returns
    (bag_path : string) (frequency : Z) (length t0 : float) (clock : list float)
    (out : list Bag.LogLine) (d : ExtractedData) :
  Ros2bagToDora.run_parse fs open_reader fromtimestamp deserialize_cdr bag_path
  = (out, Ok (Some d)) ->
  float_truediv_int 1 frequency = Ok length ->
  PrimFloat.ltb length 0 = false ->
  all_open frequency t0 clock = true ->
  Z.max 1 (Z.max (len (Imu d)) (len (odom d))) <= len clock ->
  (main fs open_reader fromtimestamp deserialize_cdr bag_path frequency t0 clock).2
  = Returned.
Proof.
  intros Hparse Hlen Hsleep Hopen Hneed. unfold main. rewrite Hparse.
  pose proof (simulate_returns frequency length (configure d frequency (init t0)) clock)
    as Hsim.
  destruct (simulate frequency (configure d frequency (init t0)) clock) as [lines exit].
  cbn [snd] in *. apply Hsim; try assumption; try reflexivity.
  - unfold in_range, len. cbn. lia.
  - cbn. now rewrite !Z.sub_0_r.
Qed.

(** X8: with [--frequency 0], after a successful extraction, [main] prints
    its two lines and ends in an uncaught [ZeroDivisionError] on the first
    tick, without sending anything. *)
Theorem main_zero_frequency
    (bag_path : string) (t0 now : float) (clock : list float)
    (out : list Bag.LogLine) (d : ExtractedData) :
  Ros2bagToDora.run_parse fs open_reader fromtimestamp deserialize_cdr bag_path
  = (out, Ok (Some d)) ->
  main fs open_reader fromtimestamp deserialize_cdr bag_path 0 t0 (now :: clock)
  = (map FromParse out ++ [ReadyToSend; Simulating 0], Uncaught ZeroDivisionError).
Proof.
  intros Hparse. unfold main. rewrite Hparse. cbn [simulate].
  assert (Hcall : call (configure d 0 (init t0)) (tick []) now
                  = (configure d 0 (init t0), quiet (Raise ZeroDivisionError) [])).
  { unfold call, on_event. py_unfold. cbn -[float_truediv_int float_ge].
    assert (Hz : float_truediv_int 1 0 = Raise ZeroDivisionError)
      by (vm_compute; reflexivity).
    now rewrite Hz. }
  rewrite Hcall. reflexivity.
Qed.

(** X9: when [1.0 / frequency] is negative, [time.sleep] rejects it:
    [main] makes one call of [on_event] at most, so the readings of the
    clock after the first do not matter and the loop is not left running. *)
Theorem main_negative_frequency
    (bag_path : string) (frequency : Z) (length t0 now : float) (clock : list float) :
  float_truediv_int 1 frequency = Ok length ->
  PrimFloat.ltb length 0 = true ->
  main fs open_reader fromtimestamp deserialize_cdr bag_path frequency t0 (now :: clock)
  = main fs open_reader fromtimestamp deserialize_cdr bag_path frequency t0 [now]
  /\ forall o, (main fs open_reader fromtimestamp deserialize_cdr bag_path
                  frequency t0 (now :: clock)).2 <> Running o.
Proof.
  intros Hlen Hneg. unfold main.
  destruct (Ros2bagToDora.run_parse fs open_reader fromtimestamp deserialize_cdr bag_path)
    as [out [[d|]|e]]; try (split; [reflexivity|discriminate]).
  cbn [simulate].
  destruct (call (configure d frequency (init t0)) (tick []) now) as [o' c].
  rewrite Hlen, Hneg.
  destruct (call_result c) as [[]|e]; split; first [reflexivity|discriminate].
Qed.

End WithEnvironment.

Lemma main_sends_everything_witness :
  sent_payloads "odom_json"
    (main SampleBag.fs SampleBag.open_odom SampleBag.fromtimestamp
       SampleBag.deserialize_cdr "foo" 10 0 [1; 2]%float).1
  = map json_odom [Sample.odom_at 10; Sample.odom_at 12].
Proof.
  apply (main_sends_everything SampleBag.fs SampleBag.open_odom SampleBag.fromtimestamp
           SampleBag.deserialize_cdr "foo" 10 0%float [1; 2]%float
           (Ros2bagToDora.run_parse SampleBag.fs SampleBag.open_odom
              SampleBag.fromtimestamp SampleBag.deserialize_cdr "foo").1
           {| Imu := []; odom := [Sample.odom_at 10; Sample.odom_at 12] |});
    reflexivity.
Defined.

Lemma main_returns_witness :
  (main SampleBag.fs SampleMixed.open_mixed SampleBag.fromtimestamp
     SampleBag.deserialize_cdr "foo" 10 0 [1; 2; 3]%float).2
  = Returned.
Proof.
  apply (main_returns SampleBag.fs SampleMixed.open_mixed SampleBag.fromtimestamp
           SampleBag.deserialize_cdr "foo" 10 one_tenth 0%float [1; 2; 3]%float
           (Ros2bagToDora.run_parse SampleBag.fs SampleMixed.open_mixed
              SampleBag.fromtimestamp SampleBag.deserialize_cdr "foo").1
           {| Imu := [Sample.imu_at 20; Sample.imu_at 23]; odom := [Sample.odom_at 22] |});
    first [reflexivity | vm_compute; discriminate].
Defined.

Lemma main_zero_frequency_witness :
  (main SampleBag.fs SampleBag.open_odom SampleBag.fromtimestamp
     SampleBag.deserialize_cdr "foo" 0 0 [1; 2]%float).2
  = Uncaught ZeroDivisionError.
Proof.
  exact (f_equal snd
           (main_zero_frequency SampleBag.fs SampleBag.open_odom SampleBag.fromtimestamp
              SampleBag.deserialize_cdr "foo" 0%float 1%float [2%float]
              (Ros2bagToDora.run_parse SampleBag.fs SampleBag.open_odom
                 SampleBag.fromtimestamp SampleBag.deserialize_cdr "foo").1
              {| Imu := []; odom := [Sample.odom_at 10; Sample.odom_at 12] |}
              eq_refl)).
Defined.

Lemma main_negative_frequency_witness :
  main SampleBag.fs SampleBag.open_odom SampleBag.fromtimestamp
    SampleBag.deserialize_cdr "foo" (-10) 0 [1; 2; 3]%float
  = main SampleBag.fs SampleBag.open_odom SampleBag.fromtimestamp
      SampleBag.deserialize_cdr "foo" (-10) 0 [1]%float.
Proof.
  apply (main_negative_frequency SampleBag.fs SampleBag.open_odom SampleBag.fromtimestamp
           SampleBag.deserialize_cdr "foo" (-10) (-0x1.999999999999ap-4)%float
           0%float 1%float [2; 3]%float); reflexivity.
Defined.

End MainFacts.

(** ** More on locator, summary and extraction *)
Module BagMore.
Import Posix Rosbags Bag Extraction BagFacts.

Section ReaderBlock.
Variable fs : FileSystem.
Variable open_reader : string -> result Reader.
Variable fromtimestamp : float -> result string.
Variable deserialize_cdr : list byte -> string -> result Msg.

(** The reader block in closed form. *)
Lemma reader_block_eq (bag_path : string) (bag_file_name : BagFileName)
    (out : list LogLine) (s : ExtractedData) :
  Ros2bagToDora.reader_block fs open_reader fromtimestamp deserialize_cdr
    bag_path bag_file_name (out, s)
  = match open_reader bag_path with
    | Raise e => ((out, s), Raise e)
    | Ok reader =>
        match summary fs fromtimestamp bag_path bag_file_name reader (out, s) with
        | (st1, Raise e) => (st1, Raise e)
        | ((out1, _), Ok _) =>
            match for_each (messages reader) (extract_message deserialize_cdr)
                    (out1, Ros2bagToDora.empty_data) with
            | (st2, Raise e) => (st2, Raise e)
            | ((out2, d), Ok _) =>
                match messages_failure reader with
                | Some e => ((out2, d), Raise e)
                | None =>
                    ((out2 ++ [LineExtractedImu (Z.of_nat (length (Imu d)));
                               LineExtractedOdom (Z.of_nat (length (odom d)))], d),
                     Ok (Some d))
                end
            end
        end
    end.
Proof.
  unfold Ros2bagToDora.reader_block.
  unfold bind at 1, lift at 1.
  destruct (open_reader bag_path) as [reader|e]; [|reflexivity].
  unfold bind at 1.
  destruct (summary fs fromtimestamp bag_path bag_file_name reader (out, s))
    as [[out1 s1] [[]|e]]; [|reflexivity].
  unfold bind at 1, modify at 1. unfold bind at 1. unfold extract.
  unfold bind at 1.
  destruct (for_each (messages reader) (extract_message deserialize_cdr)
              (out1, Ros2bagToDora.empty_data)) as [[out2 d] [[]|e]]; [|reflexivity].
  destruct (messages_failure reader) as [e|]; [reflexivity|].
  py_unfold. cbn. now rewrite <- !app_assoc.
Qed.

(** [parse_ros2_bag] of [ros2bag_read.py] around the locator. *)
Lemma read_parse_eq (p : string) :
  Ros2bagRead.run_parse fs open_reader fromtimestamp p
  = match run_locate fs p with
    | (out, Ok (Some (bag_path, bag_file_name))) =>
        match open_reader bag_path with
        | Raise e => (out ++ [ParsingFrom bag_path; ErrorParsing e], Ok tt)
        | Ok reader =>
            match summary fs fromtimestamp bag_path bag_file_name reader
                    (out ++ [ParsingFrom bag_path], tt) with
            | ((out', _), Ok _) => (out', Ok tt)
            | ((out', _), Raise e) => (out' ++ [ErrorParsing e], Ok tt)
            end
        end
    | (out, Ok None) => (out, Ok tt)
    | (out, Raise e) => (out, Raise e)
    end.
Proof.
  unfold Ros2bagRead.run_parse, Ros2bagRead.parse_ros2_bag.
  unfold bind at 1. rewrite (locate_any_state fs p tt).
  destruct (run_locate fs p) as [out [[[bp bfn]|]|e]]; cbn [fst snd]; try reflexivity.
  unfold bind at 1, Bag.print at 1, modify at 1. unfold try_except.
  unfold bind at 1, lift at 1.
  destruct (open_reader bp) as [reader|e].
  - destruct (summary fs fromtimestamp bp bfn reader (out ++ [ParsingFrom bp], tt))
      as [[out' []] [[]|e]]; [reflexivity|].
    py_unfold. reflexivity.
  - py_unfold. cbn. now rewrite <- app_assoc.
Qed.

(** What the summary prints and how it ends do not depend on the state it
    starts from. *)
Lemma summary_shape (bag_path : string) (bag_file_name : BagFileName) (reader : Reader) :
  exists lines r,
    forall S (out : list LogLine) (s : S),
      summary fs fromtimestamp bag_path bag_file_name reader (out, s)
      = ((out ++ lines, s), r).
Proof.
  destruct (summary_lines fs fromtimestamp bag_path bag_file_name reader [] tt)
    as [[e He] | (added & Hs & _)].
  - exists [], (Raise e). intros S out s. rewrite app_nil_r.
    rewrite summary_eq in *. cbv zeta in *.
    repeat match type of He with
           | context [match ?x with Ok _ => _ | Raise _ => _ end] => destruct x
           end; congruence.
  - exists added, (Ok tt). intros S out s.
    rewrite summary_eq in *. cbv zeta in *.
    repeat match type of Hs with
           | context [match ?x with Ok _ => _ | Raise _ => _ end] => destruct x
           end; try discriminate.
    injection Hs as Hs. cbn [app] in Hs. now rewrite <- Hs.
Qed.




(** X18: when [parse_ros2_bag] returns a structure, the last two lines it
    printed are the two counts, and they are the lengths of the two
    sequences it returns. *)
Theorem returned_data_matches_counts
    (p : string) (out : list LogLine) (d : ExtractedData) :
  Ros2bagToDora.run_parse fs open_reader fromtimestamp deserialize_cdr p
  = (out, Ok (Some d)) ->
  exists before,
    out = before ++ [LineExtractedImu (Z.of_nat (length (Imu d)));
                     LineExtractedOdom (Z.of_nat (length (odom d)))].
Proof.
  rewrite run_parse_eq, locate_any_state.
  destruct (run_locate fs p) as [out1 [[[bp bfn]|]|e]]; cbn [fst snd]; try discriminate.
  rewrite reader_block_eq.
  destruct (open_reader bp) as [reader|e]; [|discriminate].
  destruct (summary fs fromtimestamp bp bfn reader _) as [[out2 s2] [[]|e]];
    [|discriminate].
  destruct (for_each (messages reader) (extract_message deserialize_cdr) _)
    as [[out3 d3] [[]|e]]; [|discriminate].
  destruct (messages_failure reader); [discriminate|].
  intros [= <- <-]. eauto.
Qed.

(** X15: on the same path and bag, what [ros2bag_to_dora.py] prints
    starts with everything [ros2bag_read.py] prints, and goes on with
    nothing, with one parse-error line, or with the two count lines. *)
Theorem dora_output_extends_read_output (p : string) :
  exists extra,
    (Ros2bagToDora.run_parse fs open_reader fromtimestamp deserialize_cdr p).1
    = (Ros2bagRead.run_parse fs open_reader fromtimestamp p).1 ++ extra
    /\ (extra = []
        \/ (exists e, extra = [ErrorParsing e])
        \/ (exists n k, extra = [LineExtractedImu n; LineExtractedOdom k])).
Proof.
  rewrite run_parse_eq, locate_any_state, read_parse_eq.
  destruct (run_locate fs p) as [out [[[bp bfn]|]|e]]; cbn [fst snd];
    try (exists []; rewrite app_nil_r; now auto).
  rewrite reader_block_eq.
  destruct (open_reader bp) as [reader|e].
  2: { exists []. rewrite app_nil_r. cbn. rewrite <- app_assoc. auto. }
  destruct (summary_shape bp bfn reader) as (lines & r & Hshape).
  rewrite !Hshape.
  destruct r as [[]|e]; cbn [fst].
  2: { exists []. rewrite app_nil_r. auto. }
  pose proof (for_each_extract_out deserialize_cdr (messages reader)
                ((out ++ [ParsingFrom bp]) ++ lines, Ros2bagToDora.empty_data)) as Hout.
  destruct (for_each (messages reader) (extract_message deserialize_cdr) _)
    as [[out3 d3] [[]|e]]; cbn in Hout; subst out3; cbn [fst].
  - destruct (messages_failure reader) as [e|]; cbn [fst]; eauto 10.
  - eauto 10.
Qed.

(** X16: the summary never leaves a report half printed: it raises before
    its first line, or it prints its eight lines and then one topic line
    per connection, in the order of [reader.connections]. *)
Theorem summary_is_all_or_nothing {S}
    (bag_path : string) (bag_file_name : BagFileName) (reader : Reader)
    (out : list LogLine) (s : S) :
  (exists e, summary fs fromtimestamp bag_path bag_file_name reader (out, s)
             = ((out, s), Raise e))
  \/ (exists header,
        length header = 8%nat
        /\ summary fs fromtimestamp bag_path bag_file_name reader (out, s)
           = ((out ++ header ++ map (topic_line (metadata reader)) (connections reader), s),
              Ok tt)).
Proof.
  rewrite summary_eq. cbv zeta.
  repeat (case_result; [|left; eauto]).
  right. eexists. split; [|reflexivity]. reflexivity.
Qed.

End ReaderBlock.


Section Scan.
Variable deserialize_cdr : list byte -> string -> result Msg.

(** The loop, when no message fails: the records of both topics, appended
    in the order of the messages. *)
Lemma for_each_records {S} (ms : list RawMessage) (out : S) (d : ExtractedData) :
  first_failure deserialize_cdr ms = None ->
  for_each ms (extract_message deserialize_cdr) (out, d)
  = ((out, {| Imu := Imu d ++ imu_records deserialize_cdr ms;
              odom := odom d ++ odom_records deserialize_cdr ms |}), Ok tt).
Proof.
  revert d. induction ms as [|m ms IH]; intros d Hnone.
  - cbn. unfold ret. rewrite !app_nil_r. now destruct d.
  - cbn [first_failure] in Hnone.
    destruct (record_failure deserialize_cdr m) as [e|] eqn:Hm; [discriminate|].
    cbn [for_each imu_records odom_records flat_map]. unfold bind.
    destruct m as [[connection timestamp] rawdata].
    unfold record_failure, imu_record, odom_record, on_topic, extract_message in *.
    cbn [fst snd] in *.
    destruct (String.eqb_spec (topic connection) "/Imu") as [Htopic|_].
    + rewrite Htopic. cbn [String.eqb Ascii.eqb Bool.eqb]. py_unfold.
      destruct (deserialize_cdr rawdata (msgtype connection)) as [msg|e];
        [|discriminate].
      destruct (reshape_imu timestamp msg) as [r|e]; [|discriminate].
      rewrite IH by assumption. cbn. now rewrite <- !app_assoc.
    + destruct (String.eqb (topic connection) "/odom").
      * py_unfold.
        destruct (deserialize_cdr rawdata (msgtype connection)) as [msg|e];
          [|discriminate].
        destruct (reshape_odom timestamp msg) as [r|e]; [|discriminate].
        rewrite IH by assumption. cbn. now rewrite <- !app_assoc.
      * unfold ret. now rewrite IH by assumption.
Qed.

(** The loop, when a message fails: it raises the exception of the first
    such message. *)
Lemma for_each_failure {S} (ms : list RawMessage) (out : S) (d : ExtractedData)
    (e : exn) :
  first_failure deserialize_cdr ms = Some e ->
  exists d', for_each ms (extract_message deserialize_cdr) (out, d) = ((out, d'), Raise e).
Proof.
  revert d. induction ms as [|m ms IH]; intros d Hfail; [discriminate|].
  cbn [first_failure] in Hfail. cbn [for_each]. unfold bind.
  destruct m as [[connection timestamp] rawdata].
  unfold record_failure, imu_record, odom_record, on_topic, extract_message in *.
  cbn [fst snd] in *.
  destruct (String.eqb (topic connection) "/Imu").
  - py_unfold.
    destruct (deserialize_cdr rawdata (msgtype connection)) as [msg|e'].
    + destruct (reshape_imu timestamp msg) as [r|e'].
      * apply IH, Hfail.
      * injection Hfail as ->. eauto.
    + injection Hfail as ->. eauto.
  - destruct (String.eqb (topic connection) "/odom").
    + py_unfold.
      destruct (deserialize_cdr rawdata (msgtype connection)) as [msg|e'].
      * destruct (reshape_odom timestamp msg) as [r|e'].
        -- apply IH, Hfail.
        -- injection Hfail as ->. eauto.
      * injection Hfail as ->. eauto.
    + unfold ret. apply IH, Hfail.
Qed.

(** Messages on other topics leave the loop where it is. *)
Lemma for_each_recognized {S} (ms : list RawMessage) (st : S * ExtractedData) :
  for_each (List.filter recognized ms) (extract_message deserialize_cdr) st
  = for_each ms (extract_message deserialize_cdr) st.
Proof.
  revert st. induction ms as [|m ms IH]; intros st; [reflexivity|].
  cbn [List.filter for_each].
  destruct m as [[connection timestamp] rawdata].
  unfold recognized, on_topic. cbn [fst snd].
  destruct (String.eqb (topic connection) "/Imu") eqn:Himu; cbn [orb].
  - cbn [for_each]. unfold bind.
    destruct (extract_message deserialize_cdr (connection, timestamp, rawdata) st)
      as [st' [[]|e]]; [apply IH|reflexivity].
  - destruct (String.eqb (topic connection) "/odom") eqn:Hodom.
    + cbn [for_each]. unfold bind.
      destruct (extract_message deserialize_cdr (connection, timestamp, rawdata) st)
        as [st' [[]|e]]; [apply IH|reflexivity].
    + unfold bind, extract_message. rewrite Himu, Hodom. unfold ret. apply IH.
Qed.

Lemma imu_records_timestamps (ms : list RawMessage) :
  first_failure deserialize_cdr ms = None ->
  map imu_timestamp (imu_records deserialize_cdr ms)
  = map timestamp_of (List.filter (on_topic "/Imu") ms).
Proof.
  induction ms as [|m ms IH]; intros Hnone; [reflexivity|].
  cbn [first_failure] in Hnone.
  destruct (record_failure deserialize_cdr m) as [e|] eqn:Hm; [discriminate|].
  cbn [imu_records flat_map List.filter]. fold (imu_records deserialize_cdr ms).
  unfold record_failure, imu_record in *.
  destruct (on_topic "/Imu" m); [|now apply IH].
  destruct (deserialize_cdr m.2 (msgtype m.1.1)) as [msg|e]; [|discriminate].
  destruct msg; try discriminate. cbn. f_equal. now apply IH.
Qed.

Lemma odom_records_timestamps (ms : list RawMessage) :
  first_failure deserialize_cdr ms = None ->
  map odom_timestamp (odom_records deserialize_cdr ms)
  = map timestamp_of (List.filter (on_topic "/odom") ms).
Proof.
  induction ms as [|m ms IH]; intros Hnone; [reflexivity|].
  cbn [first_failure] in Hnone.
  destruct (record_failure deserialize_cdr m) as [e|] eqn:Hm; [discriminate|].
  cbn [odom_records flat_map List.filter]. fold (odom_records deserialize_cdr ms).
  unfold record_failure, odom_record in *.
  destruct (on_topic "/odom" m) eqn:Hodom; [|now apply IH].
  destruct (on_topic "/Imu" m) eqn:Himu.
  { unfold on_topic in *. apply String.eqb_eq in Hodom, Himu. congruence. }
  destruct (deserialize_cdr m.2 (msgtype m.1.1)) as [msg|e]; [|discriminate].
  destruct msg; try discriminate. cbn. f_equal. now apply IH.
Qed.

End Scan.

Section Extract.
Variable fs : FileSystem.
Variable open_reader : string -> result Reader.
Variable fromtimestamp : float -> result string.
Variable deserialize_cdr : list byte -> string -> result Msg.

(** X12: when the path resolves to a bag directory, the reader opens, the
    summary completes and neither a message nor the iterator fails,
    [parse_ros2_bag] returns the IMU records and the odometry records of
    the messages, each sequence in the order of the iterator, and every
    record carries the timestamp of its message. *)
Theorem extraction_keeps_order_and_timestamps
    (p bag_path : string) (bag_file_name : BagFileName)
    (out1 : list LogLine) (reader : Reader) :
  run_locate fs p = (out1, Ok (Some (bag_path, bag_file_name))) ->
  open_reader bag_path = Ok reader ->
  (summary fs fromtimestamp bag_path bag_file_name reader ([], tt)).2 = Ok tt ->
  scan_error deserialize_cdr reader = None ->
  let imu := imu_records deserialize_cdr (messages reader) in
  let odometry := odom_records deserialize_cdr (messages reader) in
  (Ros2bagToDora.run_parse fs open_reader fromtimestamp deserialize_cdr p).2
  = Ok (Some {| Imu := imu; odom := odometry |})
  /\ map imu_timestamp imu
     = map timestamp_of (List.filter (on_topic "/Imu") (messages reader))
  /\ map odom_timestamp odometry
     = map timestamp_of (List.filter (on_topic "/odom") (messages reader)).
Proof.
  intros Hloc Hopen Hsum Hscan imu odometry. unfold scan_error in Hscan.
  destruct (first_failure deserialize_cdr (messages reader)) eqn:Hfirst; [discriminate|].
  refine (conj _ (conj (imu_records_timestamps _ _ Hfirst)
                       (odom_records_timestamps _ _ Hfirst))).
  rewrite run_parse_eq, locate_any_state, Hloc. cbn [fst snd].
  rewrite reader_block_eq, Hopen.
  destruct (summary_ok_any_state fs fromtimestamp bag_path bag_file_name reader
              (out1 ++ [ParsingFrom bag_path]) Ros2bagToDora.empty_data Hsum)
    as [added ->].
  rewrite (for_each_records deserialize_cdr _ _ _ Hfirst), Hscan. reflexivity.
Qed.

(** X13: when the path resolves to a bag directory, the reader opens and
    the summary completes, and a message fails to deserialize or lacks the
    attributes of its topic, or the iterator fails, [parse_ros2_bag]
    returns [None] and its last line reports the exception of the first
    message that failed, or that of the iterator when no message did. *)
Theorem first_failure_is_reported
    (p bag_path : string) (bag_file_name : BagFileName)
    (out1 : list LogLine) (reader : Reader) (e : exn) :
  run_locate fs p = (out1, Ok (Some (bag_path, bag_file_name))) ->
  open_reader bag_path = Ok reader ->
  (summary fs fromtimestamp bag_path bag_file_name reader ([], tt)).2 = Ok tt ->
  scan_error deserialize_cdr reader = Some e ->
  exists out,
    Ros2bagToDora.run_parse fs open_reader fromtimestamp deserialize_cdr p
    = (out ++ [ErrorParsing e], Ok None).
Proof.
  intros Hloc Hopen Hsum Hscan. unfold scan_error in Hscan.
  rewrite run_parse_eq, locate_any_state, Hloc. cbn [fst snd].
  rewrite reader_block_eq, Hopen.
  destruct (summary_ok_any_state fs fromtimestamp bag_path bag_file_name reader
              (out1 ++ [ParsingFrom bag_path]) Ros2bagToDora.empty_data Hsum)
    as [added ->].
  destruct (first_failure deserialize_cdr (messages reader)) as [e'|] eqn:Hfirst.
  - injection Hscan as ->.
    destruct (for_each_failure deserialize_cdr (messages reader)
                ((out1 ++ [ParsingFrom bag_path]) ++ added) Ros2bagToDora.empty_data
                e Hfirst) as [d' ->].
    eauto.
  - rewrite (for_each_records deserialize_cdr _ _ _ Hfirst), Hscan. eauto.
Qed.

(** X14: messages on topics other than ["/Imu"] and ["/odom"] never
    matter: with a reader that yields only the messages on those two
    topics, [parse_ros2_bag] prints the same lines and returns the same
    result. *)
Theorem other_topics_never_matter (p : string) :
  Ros2bagToDora.run_parse fs (skipping_others open_reader) fromtimestamp deserialize_cdr p
  = Ros2bagToDora.run_parse fs open_reader fromtimestamp deserialize_cdr p.
Proof.
  rewrite !run_parse_eq.
  destruct (locate fs p ([], Ros2bagToDora.empty_data)) as [[out s] [[[bp bfn]|]|e]];
    try reflexivity.
  rewrite !reader_block_eq. unfold skipping_others.
  destruct (open_reader bp) as [reader|e]; [|reflexivity].
  change (summary fs fromtimestamp bp bfn (only_recognized reader)
            (out ++ [ParsingFrom bp], s))
    with (summary fs fromtimestamp bp bfn reader (out ++ [ParsingFrom bp], s)).
  destruct (summary fs fromtimestamp bp bfn reader (out ++ [ParsingFrom bp], s))
    as [[out1 s1] [[]|e]]; [|reflexivity].
  change (messages (only_recognized reader))
    with (List.filter recognized (messages reader)).
  now rewrite for_each_recognized.
Qed.

End Extract.

Lemma extraction_witness :
  (Ros2bagToDora.run_parse SampleBag.fs SampleMixed.open_mixed SampleBag.fromtimestamp
     SampleBag.deserialize_cdr "foo").2
  = Ok (Some {| Imu := [Sample.imu_at 20; Sample.imu_at 23];
                odom := [Sample.odom_at 22] |}).
Proof.
  exact (proj1 (extraction_keeps_order_and_timestamps SampleBag.fs SampleMixed.open_mixed
                  SampleBag.fromtimestamp SampleBag.deserialize_cdr
                  "foo" "foo" (Db3Files ["bar.db3"]) [] SampleMixed.mixed_reader
                  eq_refl eq_refl eq_refl eq_refl)).
Defined.

Lemma first_failure_witness :
  exists out,
    Ros2bagToDora.run_parse SampleBag.fs SampleMixed.open_mislabelled
      SampleBag.fromtimestamp SampleBag.deserialize_cdr "foo"
    = (out ++ [ErrorParsing (AttributeError "pose")], Ok None).
Proof.
  exact (first_failure_is_reported SampleBag.fs SampleMixed.open_mislabelled
           SampleBag.fromtimestamp SampleBag.deserialize_cdr
           "foo" "foo" (Db3Files ["bar.db3"]) [] SampleMixed.mislabelled_reader
           (AttributeError "pose") eq_refl eq_refl eq_refl eq_refl).
Defined.

Lemma returned_data_witness :
  exists before,
    (Ros2bagToDora.run_parse SampleBag.fs SampleMixed.open_mixed SampleBag.fromtimestamp
       SampleBag.deserialize_cdr "foo").1
    = before ++ [LineExtractedImu 2; LineExtractedOdom 1].
Proof.
  exact (returned_data_matches_counts SampleBag.fs SampleMixed.open_mixed
           SampleBag.fromtimestamp SampleBag.deserialize_cdr "foo"
           (Ros2bagToDora.run_parse SampleBag.fs SampleMixed.open_mixed
              SampleBag.fromtimestamp SampleBag.deserialize_cdr "foo").1
           {| Imu := [Sample.imu_at 20; Sample.imu_at 23]; odom := [Sample.odom_at 22] |}
           eq_refl).
Defined.

Lemma topic_message_counts_lookup (md : Metadata) (name : string) :
  default 0 (topic_message_counts md !! name)
  = listed_count name (topics_with_message_count md).
Proof.
  unfold topic_message_counts, listed_count.
  induction (topics_with_message_count md) as [|item items IH] using rev_ind.
  - reflexivity.
  - rewrite foldl_snoc, rev_unit. cbn [List.find].
    destruct (String.eqb_spec item.1 name) as [->|Hne].
    + now rewrite lookup_insert_eq.
    + now rewrite lookup_insert_ne.
Qed.

(** X17: the count on the topic line of a connection is the count of the
    last item of [topics_with_message_count] that has the name of its
    topic, and 0 when no item has that name. *)
Theorem topic_count_is_last_listed_or_zero (md : Metadata) (c : Connection) :
  topic_line md c
  = LineTopic (topic c) (msgtype c)
      (listed_count (topic c) (topics_with_message_count md))
      (serialization_format c)
  /\ (forallb (fun item => negb (String.eqb item.1 (topic c)))
        (topics_with_message_count md) = true ->
      topic_line md c = LineTopic (topic c) (msgtype c) 0 (serialization_format c)).
Proof.
  unfold topic_line. rewrite topic_message_counts_lookup. split; [reflexivity|].
  intros Habsent. f_equal. unfold listed_count.
  assert (Hrev : forallb (fun item => negb (String.eqb item.1 (topic c)))
                   (rev (topics_with_message_count md)) = true).
  { rewrite forallb_forall in *. intros x Hx. apply Habsent. now apply in_rev. }
  induction (rev (topics_with_message_count md)) as [|item items IH]; [reflexivity|].
  cbn in Hrev |- *. apply andb_true_iff in Hrev as [Hitem Hrest].
  destruct (String.eqb item.1 (topic c)); [discriminate|]. now apply IH.
Qed.

Lemma topic_count_witness :
  topic_line SampleBag.sample_metadata SampleBag.imu_connection
  = LineTopic "/Imu" "sensor_msgs/msg/Imu" 0 "cdr".
Proof.
  apply (topic_count_is_last_listed_or_zero SampleBag.sample_metadata
           SampleBag.imu_connection).
  reflexivity.
Defined.

End BagMore.

(** ** Paths with a directory part *)
Module PathFacts.
Import Posix Bag PathNotions BagFacts.

Lemma append_cons (c : ascii) (r x : string) :
  (String c r ++ x)%string = String c (r ++ x)%string.
Proof. reflexivity. Qed.

Lemma append_nil (x : string) : ("" ++ x)%string = x.
Proof. reflexivity. Qed.

Ltac str_simpl := rewrite ?append_cons, ?append_nil in *.

Lemma append_empty (s : string) : (s ++ "")%string = s.
Proof. induction s as [|c r IH]; str_simpl; congruence. Qed.

Lemma append_assoc (a b c : string) : ((a ++ b) ++ c)%string = (a ++ b ++ c)%string.
Proof. induction a as [|x r IH]; str_simpl; congruence. Qed.

Lemma split_slash_bare (t : string) : contains_slash t = false -> split_slash t = [t].
Proof.
  induction t as [|c r IH]; [reflexivity|].
  cbn. intros H. apply orb_false_iff in H as [Hc Hr].
  now rewrite Hc, (IH Hr).
Qed.

Lemma split_slash_not_nil (s : string) : split_slash s <> [].
Proof.
  induction s as [|c r IH]; cbn; [discriminate|].
  destruct (is_slash c); [discriminate|]. now destruct (split_slash r).
Qed.

(** The components of a path that ends in a slash-free part [t] after a
    slash. *)
Lemma split_slash_snoc (h t : string) :
  contains_slash t = false ->
  split_slash (h ++ String "/" t) = split_slash h ++ [t].
Proof.
  intros Ht. induction h as [|c r IH]; str_simpl.
  - cbn. now rewrite (split_slash_bare t Ht).
  - cbn [split_slash]. rewrite IH. destruct (is_slash c); [reflexivity|].
    pose proof (split_slash_not_nil r). now destruct (split_slash r).
Qed.

Lemma split_last_slash_bare (r : string) :
  split_last_slash r = None -> contains_slash r = false.
Proof.
  induction r as [|x r IH]; [reflexivity|].
  cbn. destruct (split_last_slash r) as [[]|]; [discriminate|].
  destruct (is_slash x); [discriminate|]. intros _. now apply IH.
Qed.

Lemma split_last_slash_spec (p h t : string) :
  split_last_slash p = Some (h, t) ->
  exists h0, h = (h0 ++ "/")%string
             /\ p = (h0 ++ String "/" t)%string
             /\ contains_slash t = false.
Proof.
  revert h t. induction p as [|c r IH]; intros h t; [discriminate|].
  cbn. destruct (split_last_slash r) as [[h' t']|] eqn:Hr.
  - intros [= <- <-]. destruct (IH _ _ eq_refl) as (h0 & -> & -> & Ht).
    exists (String c h0). now str_simpl.
  - destruct (is_slash c) eqn:Hc; [|discriminate].
    intros [= <- <-]. exists "". unfold is_slash in Hc.
    apply Ascii.eqb_eq in Hc. subst c. str_simpl.
    repeat split. now apply split_last_slash_bare.
Qed.

Lemma contains_slash_split (p : string) :
  contains_slash p = true -> exists h t, split_last_slash p = Some (h, t).
Proof.
  induction p as [|c r IH]; [discriminate|].
  cbn. destruct (split_last_slash r) as [[h t]|]; [eauto|].
  destruct (is_slash c); [eauto|]. cbn. intros H. now destruct (IH H) as (? & ? & ?).
Qed.

Lemma resolve_eq (fs : FileSystem) (p : string) :
  p <> "" ->
  resolve fs p
  = match fold_left (step_component fs) (split_slash p) (Some (start_of fs p)) with
    | Some loc => lookup_node (root fs) loc
    | None => None
    end.
Proof. now destruct p. Qed.

Lemma start_of_append (fs : FileSystem) (h x : string) :
  h <> "" -> start_of fs (h ++ x) = start_of fs h.
Proof. now destruct h. Qed.

Lemma append_not_empty (h : string) (c : ascii) (x : string) :
  (h ++ String c x)%string <> "".
Proof. destruct h; str_simpl; discriminate. Qed.

(** A step succeeds only from a directory. *)
Lemma step_from_directory (fs : FileSystem) (from : option (list string))
    (c : string) (loc : list string) :
  step_component fs from c = Some loc ->
  exists loc1 listable entries,
    from = Some loc1 /\ lookup_node (root fs) loc1 = Some (Dir listable entries).
Proof.
  unfold step_component. destruct from as [loc1|]; [|discriminate].
  destruct (lookup_node (root fs) loc1) as [[|listable entries]|] eqn:E;
    try discriminate.
  intros _. now exists loc1, listable, entries.
Qed.

Lemma step_empty_component (fs : FileSystem) (loc : list string)
    (listable : bool) (entries : list (string * node)) :
  lookup_node (root fs) loc = Some (Dir listable entries) ->
  step_component fs (Some loc) "" = Some loc.
Proof. unfold step_component. now intros ->. Qed.

(** What is before the last slash of an existing path is a directory. *)
Lemma head_is_directory (fs : FileSystem) (h0 t : string) :
  contains_slash t = false ->
  path_exists fs (h0 ++ String "/" t) = true ->
  isdir fs (h0 ++ "/") = true.
Proof.
  intros Ht. unfold path_exists, isdir.
  rewrite !resolve_eq by apply append_not_empty.
  rewrite (split_slash_snoc h0 t Ht), (split_slash_snoc h0 "" eq_refl).
  rewrite !fold_left_app. cbn [fold_left].
  assert (Hstart : start_of fs (h0 ++ String "/" t) = start_of fs (h0 ++ "/")).
  { destruct h0; reflexivity. }
  rewrite Hstart.
  destruct (step_component fs _ t) as [loc|] eqn:Hstep; [|discriminate].
  intros _.
  destruct (step_from_directory _ _ _ _ Hstep) as (loc1 & l & entries & -> & Hdir).
  now rewrite (step_empty_component fs loc1 l entries Hdir), Hdir.
Qed.

(** A directory named with a slash at the end is a directory without
    it. *)
Lemma isdir_without_last_slash (fs : FileSystem) (s : string) :
  s <> "" -> isdir fs (s ++ "/") = true -> isdir fs s = true.
Proof.
  intros Hs. unfold isdir.
  rewrite (resolve_eq fs (s ++ "/")) by apply append_not_empty.
  rewrite (resolve_eq fs s) by assumption.
  rewrite (split_slash_snoc s "" eq_refl), fold_left_app. cbn [fold_left].
  rewrite start_of_append by assumption.
  destruct (fold_left (step_component fs) (split_slash s) (Some (start_of fs s)))
    as [loc|]; [|discriminate].
  unfold step_component.
  destruct (lookup_node (root fs) loc) as [[|l entries]|] eqn:Hloc; try discriminate.
  cbn. now rewrite Hloc.
Qed.

Lemma slashes_snoc (k : nat) : slashes (S k) = (slashes k ++ "/")%string.
Proof.
  induction k as [|k IH]; [reflexivity|].
  change (slashes (S (S k))) with (String "/"%char (slashes (S k))).
  rewrite IH at 1. reflexivity.
Qed.

Lemma isdir_without_slashes (fs : FileSystem) (s : string) (k : nat) :
  s <> "" -> isdir fs (s ++ slashes k) = true -> isdir fs s = true.
Proof.
  intros Hs. induction k as [|k IH].
  - cbn [slashes]. now rewrite append_empty.
  - rewrite slashes_snoc, <- append_assoc. intros H. apply IH.
    apply isdir_without_last_slash; [|exact H].
    destruct s; [contradiction|]. str_simpl. discriminate.
Qed.

Lemma rstrip_slash_spec (s : string) :
  exists k, s = (rstrip_slash s ++ slashes k)%string.
Proof.
  induction s as [|c r [k IH]]; [now exists 0%nat|].
  cbn [rstrip_slash]. destruct (rstrip_slash r) as [|x r'] eqn:Hr.
  - str_simpl. destruct (is_slash c) eqn:Hc.
    + exists (S k). unfold is_slash in Hc. apply Ascii.eqb_eq in Hc. subst c.
      str_simpl. cbn [slashes]. now rewrite <- IH.
    + exists k. str_simpl. now rewrite <- IH.
  - exists k. str_simpl. now rewrite <- IH.
Qed.

Lemma all_slashes_slashes (k : nat) : all_slashes (slashes k) = true.
Proof. induction k as [|k IH]; [reflexivity|exact IH]. Qed.

(** X10: an existing file whose name ends in [.db3] and is given with a
    directory part is always located: [os.path.dirname] of the path is a
    directory, the check of the bag directory passes, and the locator
    resolves to that directory after the warning. *)
Theorem db3_file_with_directory_is_located (fs : FileSystem) (p : string) :
  isfile fs p = true ->
  endswith p ".db3" = true ->
  contains_slash p = true ->
  isdir fs (dirname p) = true
  /\ run_locate fs p
     = ([WarningDb3Provided (dirname p)], Ok (Some (dirname p, BaseName (basename p)))).
Proof.
  intros Hfile Hext Hslash.
  assert (Hdir : isdir fs (dirname p) = true).
  { destruct (contains_slash_split p Hslash) as (h & t & Hsplit).
    destruct (split_last_slash_spec p h t Hsplit) as (h0 & -> & Hp & Ht).
    assert (Hhead : isdir fs (h0 ++ "/") = true).
    { apply (head_is_directory fs h0 t Ht). rewrite <- Hp.
      now apply isfile_exists. }
    unfold dirname. rewrite Hsplit.
    destruct (negb (String.eqb (h0 ++ "/") "") && negb (all_slashes (h0 ++ "/")))
      eqn:Hstrip; [|exact Hhead].
    apply andb_true_iff in Hstrip as [_ Hnot]. apply negb_true_iff in Hnot.
    destruct (rstrip_slash_spec (h0 ++ "/")) as [k Hk].
    apply (isdir_without_slashes fs _ k); [|now rewrite <- Hk].
    intros Hempty. rewrite Hempty in Hk. str_simpl.
    rewrite Hk, all_slashes_slashes in Hnot. discriminate. }
  split; [exact Hdir|].
  unfold run_locate.
  now rewrite locate_eq, (isfile_exists _ _ Hfile), Hfile, Hext, Hdir.
Qed.

Lemma db3_file_with_directory_witness :
  run_locate SampleBag.fs "./foo//bar.db3"
  = ([WarningDb3Provided "./foo"], Ok (Some ("./foo", BaseName "bar.db3"))).
Proof.
  apply (db3_file_with_directory_is_located SampleBag.fs "./foo//bar.db3");
    reflexivity.
Defined.

End PathFacts.
